(** * django_openstack.api: attribute-checked wrappers and operation functions

    A shallow embedding of [django_openstack/api.py].  Python values are a
    small dynamically typed universe, exceptions are an explicit result type,
    and the two effects the module has (log records, remote calls) are
    collected in a writer monad. *)

From stdpp Require Import gmap strings list fin_maps pretty.
From Stdlib Require Import ZArith.

Open Scope string_scope.
Local Set Warnings "-register-all".

(** ** Wrapper classes *)

(** The concrete wrapper classes of the module, lines 89-151. *)
Inductive wrapper_class :=
  | Console | Flavor | Image | ImageProperties | KeyPair | Server
  | Services | Tenant | Token | Usage | User.

Global Instance wrapper_class_eq_dec : EqDecision wrapper_class.
Proof. solve_decision. Defined.

(** The base class a wrapper class derives from. *)
Inductive base_class := APIResourceWrapper | APIDictWrapper.

Definition base_of (k : wrapper_class) : base_class :=
  match k with
  | Image | ImageProperties => APIDictWrapper
  | _ => APIResourceWrapper
  end.

(** ** Python values *)

(** [VRaw cls fields] is an object handed out by a backend client: the name
    of its class and its instance attributes.  [VWrap k payload] is an
    instance of wrapper class [k]; its only instance attribute ([apiresource]
    or [apidict]) holds [payload].  [VMethod k payload name] is the method
    [name] of class [k] bound to such an instance, [VBuiltin name] an
    attribute every object inherits from [object], [VClass k] the class
    object of [k] and [VType name] the class object of anything else. *)
Inductive value :=
  | VNone
  | VBool (b : bool)
  | VInt (z : Z)
  | VStr (s : string)
  | VList (l : list value)
  | VDict (d : gmap string value)
  | VRaw (cls : string) (fields : gmap string value)
  | VWrap (k : wrapper_class) (payload : value)
  | VMethod (k : wrapper_class) (payload : value) (name : string)
  | VBuiltin (name : string)
  | VClass (k : wrapper_class)
  | VType (name : string).

(** ** Exceptions, results and effects *)

Inductive exc :=
  | AttributeError (arg : value)
  | KeyError (key : value)
  | IndexError
  | TypeError
  | RemoteError (info : value).

Inductive res (A : Type) :=
  | Ok (a : A)
  | Raise (e : exc).
Arguments Ok {A} a.
Arguments Raise {A} e.

Inductive level := DEBUG | WARNING.

(** A backend client handle, as built by the factories of lines 163-212. *)
Inductive client :=
  | Compute (auth_token management_url : value)
  | Account (auth_token management_url : value)
  | GlanceClient (hostname port : value)
  | Admin (auth_token management_url : value)
  | Extras (auth_token management_url : value)
  | Auth (management_url : value).

(** The log messages of the module, one per format string. *)
Inductive message :=
  | UnknownAttribute   (* line 51: attribute, wrapper class, resource class *)
  | UnknownItem        (* line 74: item, wrapper class *)
  | ComputeConnection  (* line 170: token, url *)
  | AccountConnection  (* line 177: token, url *)
  | GlanceConnection   (* line 188: hostname, port *)
  | AdminConnection    (* line 194: token, url *)
  | ExtrasConnection   (* line 202: token, url *)
  | AuthConnection     (* line 210: url *)
  | UnknownTenant.     (* line 323: tenant id *)

(** What a computation leaves behind: [ELog lv msg args] is a log record of
    level [lv] whose format string is [msg], with the arguments it is
    formatted with (the text itself is not computed); [ECall c meth args
    kwargs] is the remote call of [meth] on client [c] with positional
    arguments [args] and keyword arguments [kwargs]; [EHttpGet host port
    token_id headers] is the GET request of lines 359-361. *)
Inductive event :=
  | ELog (lv : level) (msg : message) (args : list value)
  | ECall (c : client) (meth : string) (args : list value)
          (kwargs : list (string * value))
  | EHttpGet (hostname port token_id : value) (headers : gmap string value).

(** Computations: the events emitted so far and a value or an exception. *)
Definition M (A : Type) : Type := list event * res A.

Definition ret {A} (a : A) : M A := ([], Ok a).
Definition raise {A} (e : exc) : M A := ([], Raise e).
Definition emit (ev : event) : M unit := ([ev], Ok tt).
Definition lift {A} (r : res A) : M A := ([], r).

Definition bind {A B} (m : M A) (f : A → M B) : M B :=
  match m with
  | (tr, Ok a) => let '(tr', r) := f a in ((tr ++ tr')%list, r)
  | (tr, Raise e) => (tr, Raise e)
  end.

Notation "'let*' x := m 'in' k" := (bind m (λ x, k))
  (at level 10, x name, m at level 100, k at level 200, only parsing).

(** [try: m except AttributeError: handler]. *)
Definition catch_AttributeError {A} (m : M A) (handler : M A) : M A :=
  match m with
  | (tr, Raise (AttributeError _)) =>
      let '(tr', r) := handler in ((tr ++ tr')%list, r)
  | _ => m
  end.

Definition result {A} (m : M A) : res A := m.2.
Definition events {A} (m : M A) : list event := m.1.

(** ** Whitelists and class namespaces *)

(** The [attrs] class attribute of each wrapper class. *)
Definition attrs (k : wrapper_class) : list string :=
  match k with
  | Console => ["id"; "output"; "type"]
  | Flavor => ["disk"; "id"; "links"; "name"; "ram"; "vcpus"]
  | Image => ["checksum"; "created_at"; "deleted"; "deleted_at"; "disk_format";
              "id"; "is_public"; "location"; "name"; "properties";
              "size"; "status"; "updated_at"]
  | ImageProperties => ["architecture"; "image_location"; "image_state";
                        "kernel_id"; "project_id"; "ramdisk_id"]
  | KeyPair => ["fingerprint"; "key_name"; "private_key"]
  | Server => ["addresses"; "attrs"; "hostId"; "id"; "imageRef"; "links";
               "metadata"; "name"; "private_ip"; "public_ip"; "status"; "uuid"]
  | Services => ["disabled"; "host"; "id"; "last_update"; "stats"; "type"; "up";
                 "zone"]
  | Tenant => ["id"; "description"; "enabled"]
  | Token => ["id"; "serviceCatalog"; "tenant_id"; "username"]
  | Usage => ["begin"; "instances"; "stop"; "tenant_id";
              "total_active_disk_size"; "total_active_instances";
              "total_active_ram_size"; "total_active_vcpus"; "total_cpu_usage";
              "total_disk_usage"; "total_hours"; "total_ram_usage"]
  | User => ["email"; "enabled"; "id"; "tenantId"]
  end.

(** The instance attribute [__init__] stores the payload under. *)
Definition instance_attr (k : wrapper_class) : string :=
  match base_of k with
  | APIResourceWrapper => "apiresource"
  | APIDictWrapper => "apidict"
  end.

(** The methods the base classes define (lines 44-55 and 67-86);
    [Image] overrides [__getattr__] and adds no name. *)
Definition methods_of (b : base_class) : list string :=
  match b with
  | APIResourceWrapper => ["__init__"; "__getattr__"]
  | APIDictWrapper => ["__init__"; "__getattr__"; "__getitem__"; "get"]
  end.

(** The attributes every new-style object inherits from [object]. *)
Definition object_attrs : list string :=
  ["__delattr__"; "__format__"; "__getattribute__"; "__hash__"; "__new__";
   "__reduce__"; "__reduce_ex__"; "__repr__"; "__setattr__"; "__sizeof__";
   "__str__"; "__subclasshook__"].

Definition class_doc (k : wrapper_class) : value :=
  match k with
  | Console => VStr "Simple wrapper around openstackx.extras.consoles.Console"
  | Flavor => VStr "Simple wrapper around openstackx.admin.flavors.Flavor"
  | Image => VStr "Simple wrapper around glance image dictionary"
  | ImageProperties =>
      VStr "Simple wrapper around glance image properties dictionary"
  | KeyPair => VStr "Simple wrapper around openstackx.extras.keypairs.Keypair"
  | Server => VStr "Simple wrapper around openstackx.extras.server.Server"
  | Services => VNone
  | Tenant => VStr "Simple wrapper around openstackx.auth.tokens.Tenant"
  | Token => VStr "Simple wrapper around openstackx.auth.tokens.Token"
  | Usage => VStr "Simple wrapper around openstackx.extras.usage.Usage"
  | User => VStr "Simple wrapper around openstackx.extras.users.User"
  end.

(** Ordinary attribute lookup on an instance of [k], the part of [w.name]
    that runs before Python falls back to [__getattr__]: the instance
    dictionary, then the class and its bases. *)
Definition normal_lookup (k : wrapper_class) (payload : value) (name : string)
  : option value :=
  if decide (name = instance_attr k) then Some payload
  else if decide (name = "attrs") then Some (VList (VStr <$> attrs k))
  else if decide (name ∈ methods_of (base_of k)) then
    Some (VMethod k payload name)
  else if decide (name = "__class__") then Some (VClass k)
  else if decide (name = "__dict__") then
    Some (VDict {[ instance_attr k := payload ]})
  else if decide (name = "__doc__") then Some (class_doc k)
  else if decide (name = "__module__") then Some (VStr "django_openstack.api")
  else if decide (name = "__weakref__") then Some VNone
  else if decide (name ∈ object_attrs) then Some (VBuiltin name)
  else None.

(** [v.__class__]. *)
Definition py_class_of (v : value) : value :=
  match v with
  | VNone => VType "NoneType"
  | VBool _ => VType "bool"
  | VInt _ => VType "int"
  | VStr _ => VType "str"
  | VList _ => VType "list"
  | VDict _ => VType "dict"
  | VRaw cls _ => VType cls
  | VWrap k _ => VClass k
  | VMethod _ _ _ => VType "instancemethod"
  | VBuiltin _ => VType "builtin_function_or_method"
  | VClass _ | VType _ => VType "type"
  end.

(** ** Primitive operations on values *)

(** [v == s] for a string literal [s]. *)
Definition py_eq_str (v : value) (s : string) : bool :=
  match v with
  | VStr s' => bool_decide (s' = s)
  | _ => false
  end.

(** [attr in self.attrs]. *)
Definition in_attrs (k : wrapper_class) (attr : value) : bool :=
  match attr with
  | VStr s => bool_decide (s ∈ attrs k)
  | _ => false
  end.

(** Sequence indexing with Python's negative indices. *)
Definition seq_index {A} (l : list A) (i : Z) : option A :=
  let n := Z.of_nat (length l) in
  if bool_decide (0 ≤ i < n)%Z then l !! Z.to_nat i
  else if bool_decide (- n ≤ i < 0)%Z then l !! Z.to_nat (n + i)
  else None.

Definition as_index (key : value) : option Z :=
  match key with
  | VInt z => Some z
  | VBool b => Some (if b then 1 else 0)%Z
  | _ => None
  end.

Definition chars (s : string) : list value :=
  (λ c, VStr (String c EmptyString)) <$> String.list_ascii_of_string s.

(** ** Attribute and item access *)

(** [APIResourceWrapper.__getattr__], lines 47-55.  [raw_getattr] is the
    bound [__getattr__] of [self.apiresource]. *)
Definition APIResourceWrapper_getattr (k : wrapper_class) (apiresource : value)
    (raw_getattr : value → M value) (attr : value) : M value :=
  if in_attrs k attr then raw_getattr attr
  else
    let* _ := emit (ELog DEBUG UnknownAttribute
                          [attr; VClass k; py_class_of apiresource]) in
    raise (AttributeError attr).

(** [APIDictWrapper.__getattr__], lines 70-77.  [dict_getitem] is
    subscription of [self.apidict]. *)
Definition APIDictWrapper_getattr (k : wrapper_class)
    (dict_getitem : value → M value) (attr : value) : M value :=
  if in_attrs k attr then dict_getitem attr
  else
    let* _ := emit (ELog DEBUG UnknownItem [attr; VClass k]) in
    raise (AttributeError attr).

(** [Image.__getattr__], lines 105-109. *)
Definition Image_getattr (dict_getitem : value → M value) (attrname : value)
  : M value :=
  if py_eq_str attrname "properties" then
    let* props := APIDictWrapper_getattr Image dict_getitem attrname in
    ret (VWrap ImageProperties props)
  else APIDictWrapper_getattr Image dict_getitem attrname.

(** [self.__getattr__(attr)] on an instance of [k]: the method the class
    resolves [__getattr__] to. *)
Definition wrapper_getattr (k : wrapper_class) (payload : value)
    (payload_getattr payload_getitem : value → M value) (attr : value)
  : M value :=
  match k with
  | Image => Image_getattr payload_getitem attr
  | ImageProperties => APIDictWrapper_getattr k payload_getitem attr
  | _ => APIResourceWrapper_getattr k payload payload_getattr attr
  end.

(** [v.__getattr__(attr)], the explicit call of line 49, and [v[key]].
    A raw resource answers [__getattr__] from its instance attributes, as the
    [Resource] base class of the backend client libraries does; the built-in
    types have no [__getattr__] method. *)
Fixpoint call_getattr (v : value) (attr : value) {struct v} : M value :=
  match v with
  | VRaw _ fields =>
      match attr with
      | VStr s =>
          match fields !! s with
          | Some x => ret x
          | None => raise (AttributeError attr)
          end
      | _ => raise (AttributeError attr)
      end
  | VWrap k p => wrapper_getattr k p (call_getattr p) (py_getitem p) attr
  | _ => raise (AttributeError (VStr "__getattr__"))
  end
with py_getitem (v : value) (key : value) {struct v} : M value :=
  match v with
  | VDict d =>
      match key with
      | VStr s =>
          match d !! s with
          | Some x => ret x
          | None => raise (KeyError key)
          end
      | VList _ | VDict _ => raise TypeError
      | _ => raise (KeyError key)
      end
  | VList l =>
      match as_index key with
      | Some i =>
          match seq_index l i with
          | Some x => ret x
          | None => raise IndexError
          end
      | None => raise TypeError
      end
  | VStr s =>
      match as_index key with
      | Some i =>
          match seq_index (chars s) i with
          | Some x => ret x
          | None => raise IndexError
          end
      | None => raise TypeError
      end
  | VWrap k p =>
      match base_of k with
      | APIDictWrapper =>
          (* APIDictWrapper.__getitem__, lines 79-80 *)
          wrapper_getattr k p (call_getattr p) (py_getitem p) key
      | APIResourceWrapper => raise TypeError
      end
  | _ => raise TypeError
  end.

(** [APIDictWrapper.__getitem__], lines 79-80. *)
Definition APIDictWrapper_getitem (k : wrapper_class) (apidict : value)
    (item : value) : M value :=
  wrapper_getattr k apidict (call_getattr apidict) (py_getitem apidict) item.

(** [APIDictWrapper.get], lines 82-86. *)
Definition APIDictWrapper_get (k : wrapper_class) (apidict : value)
    (item : value) (default : value) : M value :=
  catch_AttributeError
    (wrapper_getattr k apidict (call_getattr apidict) (py_getitem apidict) item)
    (ret default).

(** [v.name]: ordinary lookup first, [__getattr__] only when it finds
    nothing.  Of a raw resource the instance attributes are modelled, of the
    built-in types only [__class__]. *)
Definition py_getattr (v : value) (name : string) : M value :=
  match v with
  | VWrap k p =>
      match normal_lookup k p name with
      | Some x => ret x
      | None => call_getattr v (VStr name)
      end
  | VRaw _ fields =>
      match fields !! name with
      | Some x => ret x
      | None =>
          if decide (name = "__class__") then ret (py_class_of v)
          else raise (AttributeError (VStr name))
      end
  | _ =>
      if decide (name = "__class__") then ret (py_class_of v)
      else raise (AttributeError (VStr name))
  end.

(** Truth value of [v] in a boolean context. *)
Definition py_truthy (v : value) : bool :=
  match v with
  | VNone => false
  | VBool b => b
  | VInt z => negb (z =? 0)%Z
  | VStr s => negb (bool_decide (s = EmptyString))
  | VList l => negb (bool_decide (length l = 0))
  | VDict d => negb (bool_decide (size d = 0))
  | _ => true
  end.

(** The elements [for x in v] runs over.  A dictionary wrapper has
    [__getitem__] and no [__iter__], so it is probed at index 0, which its
    whitelist check refuses. *)
Definition py_iter (v : value) : M (list value) :=
  match v with
  | VList l => ret l
  | VStr s => ret (chars s)
  | VDict d => ret ((λ kv, VStr kv.1) <$> map_to_list d)
  | VWrap k _ =>
      match base_of k with
      | APIDictWrapper =>
          (* the probe always raises, the rest of the protocol is not run *)
          let* _ := py_getitem v (VInt 0) in raise IndexError
      | APIResourceWrapper => raise TypeError
      end
  | _ => raise TypeError
  end.

(** ** The request and the environment *)

(** A request carries the session mapping the views have filled in. *)
Record request := { session : gmap string value }.

(** [request.session[key]]. *)
Definition session_getitem (r : request) (key : string) : M value :=
  match session r !! key with
  | Some x => ret x
  | None => raise (KeyError (VStr key))
  end.

(** [url_for], lines 154-160. *)
Definition url_for (r : request) (service_name : string) (admin : bool)
  : M value :=
  let* catalog := session_getitem r "serviceCatalog" in
  if admin then
    let* endpoints := py_getitem catalog (VStr service_name) in
    let* endpoint := py_getitem endpoints (VInt 0) in
    py_getitem endpoint (VStr "adminURL")
  else
    let* endpoints := py_getitem catalog (VStr service_name) in
    let* endpoint := py_getitem endpoints (VInt 0) in
    py_getitem endpoint (VStr "internalURL").

(** What the module takes from outside: the Django settings, the built-ins
    [str] and [int], [urlparse], the backends behind the client handles, the
    HTTP connection and JSON decoder of [token_info], the call protocol for
    a value the module did not define, and one constant of the compute
    client library. *)
Record environment := {
  OPENSTACK_KEYSTONE_URL : value;
  OPENSTACK_ADMIN_TOKEN : value;
  py_str : value → res string;
  py_int : value → res value;
  urlparse : value → res (value * value);   (* hostname, port *)
  remote : client → string → list value → list (string * value) → res value;
  http_get : value → value → value → gmap string value → res value;
  json_loads : value → res value;
  py_call : value → list value → res value;
  REBOOT_HARD : value;
}.

Section Operations.

Variable env : environment.

(** A remote call through a client handle. *)
Definition call (c : client) (meth : string) (args : list value)
    (kwargs : list (string * value)) : M value :=
  let* _ := emit (ECall c meth args kwargs) in
  lift (remote env c meth args kwargs).

(** [[K(x) for x in v]]. *)
Definition wrap_each (k : wrapper_class) (v : value) : M value :=
  let* xs := py_iter v in
  ret (VList (VWrap k <$> xs)).

(** *** Client factories, lines 163-212 *)

Definition compute_api (r : request) : M client :=
  let* token := session_getitem r "token" in
  let* url := url_for r "nova" false in
  let compute := Compute token url in
  (* lines 168-169 store the same two values in [compute.client] *)
  let* token' := session_getitem r "token" in
  let* url' := url_for r "nova" false in
  let compute := Compute token' url' in
  let* token'' := session_getitem r "token" in
  let* url'' := url_for r "nova" false in
  let* _ := emit (ELog DEBUG ComputeConnection [token''; url'']) in
  ret compute.

Definition account_api (r : request) : M client :=
  let* token := session_getitem r "token" in
  let* url := url_for r "keystone" true in
  let* _ := emit (ELog DEBUG AccountConnection [token; url]) in
  let* token' := session_getitem r "token" in
  let* url' := url_for r "keystone" true in
  ret (Account token' url').

(** [%d] formats numbers only. *)
Definition is_number (v : value) : bool :=
  match v with
  | VInt _ | VBool _ => true
  | _ => false
  end.

Definition glance_api (r : request) : M client :=
  let* url := url_for r "glance" false in
  let* o := lift (urlparse env url) in
  let* _ := if is_number o.2
            then emit (ELog DEBUG GlanceConnection [o.1; o.2])
            else raise TypeError in
  ret (GlanceClient o.1 o.2).

Definition admin_api (r : request) : M client :=
  let* token := session_getitem r "token" in
  let* url := url_for r "nova" true in
  let* _ := emit (ELog DEBUG AdminConnection [token; url]) in
  let* token' := session_getitem r "token" in
  let* url' := url_for r "nova" true in
  ret (Admin token' url').

Definition extras_api (r : request) : M client :=
  let* token := session_getitem r "token" in
  let* url := url_for r "nova" false in
  let* _ := emit (ELog DEBUG ExtrasConnection [token; url]) in
  let* token' := session_getitem r "token" in
  let* url' := url_for r "nova" false in
  ret (Extras token' url').

Definition auth_api : M client :=
  let* _ := emit (ELog DEBUG AuthConnection [OPENSTACK_KEYSTONE_URL env]) in
  ret (Auth (OPENSTACK_KEYSTONE_URL env)).

(** *** Operation functions, lines 215-408 *)

Definition console_create (r : request) (instance_id kind : value) : M value :=
  let* c := extras_api r in
  let* x := call c "consoles.create" [instance_id; kind] [] in
  ret (VWrap Console x).

Definition flavor_create (r : request) (name memory vcpu disk flavor_id : value)
  : M value :=
  let* c := admin_api r in
  let* memory' := lift (py_int env memory) in
  let* vcpu' := lift (py_int env vcpu) in
  let* disk' := lift (py_int env disk) in
  let* x := call c "flavors.create" [name; memory'; vcpu'; disk'; flavor_id] [] in
  ret (VWrap Flavor x).

Definition flavor_delete (r : request) (flavor_id purge : value) : M value :=
  let* c := admin_api r in
  call c "flavors.delete" [flavor_id; purge] [].

Definition flavor_get (r : request) (flavor_id : value) : M value :=
  let* c := compute_api r in
  let* x := call c "flavors.get" [flavor_id] [] in
  ret (VWrap Flavor x).

Definition flavor_list (r : request) : M value :=
  let* c := extras_api r in
  let* xs := call c "flavors.list" [] [] in
  wrap_each Flavor xs.

Definition flavor_list_admin (r : request) : M value :=
  let* c := extras_api r in
  let* xs := call c "flavors.list" [] [] in
  wrap_each Flavor xs.

Definition image_create (r : request) (image_meta image_file : value)
  : M value :=
  let* c := glance_api r in
  let* x := call c "add_image" [image_meta; image_file] [] in
  ret (VWrap Image x).

Definition image_delete (r : request) (image_id : value) : M value :=
  let* c := glance_api r in
  call c "delete_image" [image_id] [].

Definition image_get (r : request) (image_id : value) : M value :=
  let* c := glance_api r in
  let* x := call c "get_image" [image_id] [] in
  let* x0 := py_getitem x (VInt 0) in
  ret (VWrap Image x0).

Definition image_list_detailed (r : request) : M value :=
  let* c := glance_api r in
  let* xs := call c "get_images_detailed" [] [] in
  wrap_each Image xs.

Definition image_update (r : request) (image_id image_meta : value) : M value :=
  let image_meta := if py_truthy image_meta then image_meta else VDict ∅ in
  let* c := glance_api r in
  let* x := call c "update_image" [image_id] [("image_meta", image_meta)] in
  ret (VWrap Image x).

Definition keypair_create (r : request) (name : value) : M value :=
  let* c := extras_api r in
  let* x := call c "keypairs.create" [name] [] in
  ret (VWrap KeyPair x).

Definition keypair_delete (r : request) (keypair_id : value) : M value :=
  let* c := extras_api r in
  call c "keypairs.delete" [keypair_id] [].

Definition keypair_list (r : request) : M value :=
  let* c := extras_api r in
  let* xs := call c "keypairs.list" [] [] in
  wrap_each KeyPair xs.

Definition server_create (r : request) (name image flavor user_data key_name : value)
  : M value :=
  let* c := extras_api r in
  let* x := call c "servers.create" [name; image; flavor]
                 [("user_data", user_data); ("key_name", key_name)] in
  ret (VWrap Server x).

Definition server_delete (r : request) (instance : value) : M value :=
  let* c := compute_api r in
  call c "servers.delete" [instance] [].

Definition server_get (r : request) (instance_id : value) : M value :=
  let* c := compute_api r in
  let* x := call c "servers.get" [instance_id] [] in
  ret (VWrap Server x).

Definition server_list (r : request) : M value :=
  let* c := extras_api r in
  let* xs := call c "servers.list" [] [] in
  wrap_each Server xs.

Definition server_reboot (r : request) (instance_id hardness : value) : M value :=
  let* server := server_get r instance_id in
  let* reboot := py_getattr server "reboot" in
  lift (py_call env reboot [hardness]).

Definition service_get (r : request) (name : value) : M value :=
  let* c := admin_api r in
  call c "services.get" [name] [].

Definition service_list (r : request) : M value :=
  let* c := admin_api r in
  let* xs := call c "services.list" [] [] in
  wrap_each Services xs.

Definition service_update (r : request) (name enabled : value) : M value :=
  let* c := admin_api r in
  call c "services.update" [name; enabled] [].

(** The loop of lines 319-321: [Some] is the [return] inside the loop,
    [None] is falling out of it. *)
Fixpoint find_tenant (tenants : list value) (tenant_id : value)
  : M (option value) :=
  match tenants with
  | [] => ret None
  | t :: rest =>
      let* id := py_getattr t "id" in
      let* s := lift (py_str env id) in
      let* s' := lift (py_str env tenant_id) in
      if bool_decide (s = s') then ret (Some (VWrap Tenant t))
      else find_tenant rest tenant_id
  end.

Definition token_get_tenant (r : request) (tenant_id : value) : M value :=
  let* c := auth_api in
  let* token := session_getitem r "token" in
  let* tenants := call c "tenants.for_token" [token] [] in
  let* ts := py_iter tenants in
  let* found := find_tenant ts tenant_id in
  match found with
  | Some t => ret t
  | None =>
      let* _ := emit (ELog WARNING UnknownTenant [tenant_id]) in
      ret VNone
  end.

Definition token_list_tenants (r : request) (token : value) : M value :=
  let* c := auth_api in
  let* xs := call c "tenants.for_token" [token] [] in
  wrap_each Tenant xs.

Definition tenant_create (r : request) (tenant_id description enabled : value)
  : M value :=
  let* c := account_api r in
  let* x := call c "tenants.create" [tenant_id; description; enabled] [] in
  ret (VWrap Tenant x).

Definition tenant_get (r : request) (tenant_id : value) : M value :=
  let* c := account_api r in
  let* x := call c "tenants.get" [tenant_id] [] in
  ret (VWrap Tenant x).

Definition tenant_list (r : request) : M value :=
  let* c := account_api r in
  let* xs := call c "tenants.list" [] [] in
  wrap_each Tenant xs.

Definition tenant_update (r : request) (tenant_id description enabled : value)
  : M value :=
  let* c := account_api r in
  let* x := call c "tenants.update" [tenant_id; description; enabled] [] in
  ret (VWrap Tenant x).

Definition token_create (r : request) (tenant username password : value)
  : M value :=
  let* c := auth_api in
  let* x := call c "tokens.create" [tenant; username; password] [] in
  ret (VWrap Token x).

(** The loop of lines 364-367 over the role list. *)
Fixpoint scan_roles (roles : list value) (admin : bool) : M bool :=
  match roles with
  | [] => ret admin
  | role :: rest =>
      let* role_id := py_getitem role (VStr "roleId") in
      if py_eq_str role_id "Admin" then scan_roles rest true
      else scan_roles rest admin
  end.

(** [data['auth']['user'][key]]. *)
Definition auth_user_field (data : value) (key : string) : M value :=
  let* auth := py_getitem data (VStr "auth") in
  let* user := py_getitem auth (VStr "user") in
  py_getitem user (VStr key).

(** The part of [token_info] after the response has been decoded,
    lines 364-371. *)
Definition token_info_extract (data : value) : M value :=
  let* role_refs := auth_user_field data "roleRefs" in
  let* roles := py_iter role_refs in
  let* admin := scan_roles roles false in
  let* tenant := auth_user_field data "tenantId" in
  let* user := auth_user_field data "username" in
  ret (VDict {[ "tenant" := tenant; "user" := user; "admin" := VBool admin ]}).

(** The request headers of lines 354-356. *)
Definition token_info_headers : gmap string value :=
  {[ "Content-type" := VStr "application/json";
     "X_AUTH_TOKEN" := OPENSTACK_ADMIN_TOKEN env;
     "Accept" := VStr "text/json" ]}.

(** The part of [token_info] that obtains the decoded response,
    lines 354-362. *)
Definition token_info_fetch (token : value) : M value :=
  let hdrs := token_info_headers in
  let* catalog := py_getattr token "serviceCatalog" in
  let* endpoints := py_getitem catalog (VStr "keystone") in
  let* endpoint := py_getitem endpoints (VInt 0) in
  let* url := py_getitem endpoint (VStr "adminURL") in
  let* o := lift (urlparse env url) in
  let* token_id := py_getattr token "id" in
  let* _ := emit (EHttpGet o.1 o.2 token_id hdrs) in
  let* body := lift (http_get env o.1 o.2 token_id hdrs) in
  lift (json_loads env body).

Definition token_info (r : request) (token : value) : M value :=
  let* data := token_info_fetch token in
  token_info_extract data.

Definition usage_get (r : request) (tenant_id start end_ : value) : M value :=
  let* c := extras_api r in
  let* x := call c "usage.get" [tenant_id; start; end_] [] in
  ret (VWrap Usage x).

Definition usage_list (r : request) (start end_ : value) : M value :=
  let* c := extras_api r in
  let* xs := call c "usage.list" [start; end_] [] in
  wrap_each Usage xs.

Definition user_create (r : request) (user_id email password tenant_id : value)
  : M value :=
  let* c := account_api r in
  let* x := call c "users.create" [user_id; email; password; tenant_id] [] in
  ret (VWrap User x).

Definition user_delete (r : request) (user_id : value) : M value :=
  let* c := account_api r in
  call c "users.delete" [user_id] [].

Definition user_get (r : request) (user_id : value) : M value :=
  let* c := account_api r in
  let* x := call c "users.get" [user_id] [] in
  ret (VWrap User x).

Definition user_list (r : request) : M value :=
  let* c := account_api r in
  let* xs := call c "users.list" [] [] in
  wrap_each User xs.

Definition user_update_email (r : request) (user_id email : value) : M value :=
  let* c := account_api r in
  let* x := call c "users.update_email" [user_id; email] [] in
  ret (VWrap User x).

Definition user_update_password (r : request) (user_id password : value)
  : M value :=
  let* c := account_api r in
  let* x := call c "users.update_password" [user_id; password] [] in
  ret (VWrap User x).

Definition user_update_tenant (r : request) (user_id tenant_id : value)
  : M value :=
  let* c := account_api r in
  let* x := call c "users.update_tenant" [user_id; tenant_id] [] in
  ret (VWrap User x).

End Operations.

(** ** Vocabulary of the statements *)

(** The log record a wrapper of class [k] leaves before it refuses [attr]. *)
Definition unknown_log (k : wrapper_class) (payload attr : value) : event :=
  match base_of k with
  | APIResourceWrapper =>
      ELog DEBUG UnknownAttribute [attr; VClass k; py_class_of payload]
  | APIDictWrapper => ELog DEBUG UnknownItem [attr; VClass k]
  end.

(** What a whitelisted field of the payload is handed out as: [Image] wraps
    its [properties], everything else is passed through. *)
Definition exposed (k : wrapper_class) (name : string) (v : value) : value :=
  if decide (k = Image ∧ name = "properties") then VWrap ImageProperties v
  else v.

(** The field [name] of a payload of the shape class [k] expects: instance
    attributes of a raw resource, or keys of a dictionary. *)
Definition payload_lookup (k : wrapper_class) (payload : value) (name : string)
  : option value :=
  match base_of k, payload with
  | APIResourceWrapper, VRaw _ fields => fields !! name
  | APIDictWrapper, VDict d => d !! name
  | _, _ => None
  end.

(** The names ordinary lookup resolves on an instance of [k]. *)
Definition resolved_names (k : wrapper_class) : list string :=
  instance_attr k :: "attrs" :: methods_of (base_of k)
  ++ ["__class__"; "__dict__"; "__doc__"; "__module__"; "__weakref__"]
  ++ object_attrs.

(** A payload that defines every field of a whitelist, each as [v]. *)
Definition full_payload (k : wrapper_class) (v : value) : gmap string value :=
  list_to_map ((λ n, (n, v)) <$> attrs k).

(** The key of an endpoint descriptor the admin flag selects. *)
Definition url_key (admin : bool) : string :=
  if admin then "adminURL" else "internalURL".

(** ** A concrete session, catalog and backend *)

(** An endpoint descriptor of the service catalog. *)
Definition endpoint (admin_url internal_url : string) : value :=
  VDict {[ "adminURL" := VStr admin_url; "internalURL" := VStr internal_url ]}.

Definition demo_catalog : gmap string value :=
  {[ "nova" := VList [endpoint "http://nova:8774/admin" "http://nova:8774/v1.1";
                      endpoint "http://nova2:8774/admin" "http://nova2:8774/v1.1"];
     "keystone" := VList [endpoint "http://keystone:35357/v2.0"
                                   "http://keystone:5000/v2.0"];
     "glance" := VList [endpoint "http://glance:9292/admin"
                                 "http://glance:9292/v1"] ]}.

Definition demo_request : request :=
  {| session := {[ "token" := VStr "s3cr3t";
                   "serviceCatalog" := VDict demo_catalog ]} |}.

Definition demo_flavors : list value :=
  [VRaw "Flavor" {[ "id" := VInt 1; "name" := VStr "m1.tiny" ]};
   VRaw "Flavor" {[ "id" := VInt 2; "name" := VStr "m1.small" ]}].

Definition demo_service : value :=
  VRaw "Service" {[ "id" := VInt 5; "host" := VStr "node1";
                    "disabled" := VBool false ]}.

Definition demo_tenants : list value :=
  [VRaw "Tenant" {[ "id" := VInt 1234; "enabled" := VBool true ]};
   VRaw "Tenant" {[ "id" := VStr "coffee"; "enabled" := VBool true ]}].

Definition demo_token_detail (roles : list string) : value :=
  VDict {[ "auth" := VDict {[ "user" := VDict
    {[ "roleRefs" := VList ((λ n, VDict {[ "roleId" := VStr n ]}) <$> roles);
       "tenantId" := VStr "coffee";
       "username" := VStr "joe" ]} ]} ]}.

Definition demo_token : value :=
  VWrap Token (VRaw "Token"
    {[ "id" := VStr "aaa-bbb"; "serviceCatalog" := VDict demo_catalog;
       "tenant_id" := VStr "coffee"; "username" := VStr "joe" ]}).

Definition demo_remote (c : client) (meth : string) (args : list value)
    (kwargs : list (string * value)) : res value :=
  if decide (meth = "flavors.list") then Ok (VList demo_flavors)
  else if decide (meth = "services.get") then Ok demo_service
  else if decide (meth = "services.update") then Ok demo_service
  else if decide (meth = "services.list") then Ok (VList [demo_service])
  else if decide (meth = "tenants.for_token") then Ok (VList demo_tenants)
  else Ok VNone.

Definition demo_env (roles : list string) : environment :=
  {| OPENSTACK_KEYSTONE_URL := VStr "http://keystone:5000/v2.0";
     OPENSTACK_ADMIN_TOKEN := VStr "999888777666";
     py_str := λ v, match v with
                    | VStr s => Ok s
                    | VInt z => Ok (pretty z)
                    | _ => Raise TypeError
                    end;
     py_int := λ v, match v with
                    | VInt z => Ok (VInt z)
                    | _ => Raise TypeError
                    end;
     urlparse := λ _, Ok (VStr "keystone", VInt 35357);
     remote := demo_remote;
     http_get := λ _ _ _ _, Ok (VStr "...");
     json_loads := λ _, Ok (demo_token_detail roles);
     py_call := λ _ _, Raise TypeError;
     REBOOT_HARD := VStr "HARD" |}.

(** ** The list-returning operations *)

Inductive list_operation :=
  | FlavorList | FlavorListAdmin | ImageListDetailed | KeypairList | ServerList
  | ServiceList | TokenListTenants (token : value) | TenantList
  | UsageList (start end_ : value) | UserList.

Definition run_list_operation (env : environment) (r : request)
    (op : list_operation) : M value :=
  match op with
  | FlavorList => flavor_list env r
  | FlavorListAdmin => flavor_list_admin env r
  | ImageListDetailed => image_list_detailed env r
  | KeypairList => keypair_list env r
  | ServerList => server_list env r
  | ServiceList => service_list env r
  | TokenListTenants token => token_list_tenants env r token
  | TenantList => tenant_list env r
  | UsageList start end_ => usage_list env r start end_
  | UserList => user_list env r
  end.

(** The wrapper class, the client factory and the remote call of each. *)
Definition list_operation_class (op : list_operation) : wrapper_class :=
  match op with
  | FlavorList | FlavorListAdmin => Flavor
  | ImageListDetailed => Image
  | KeypairList => KeyPair
  | ServerList => Server
  | ServiceList => Services
  | TokenListTenants _ | TenantList => Tenant
  | UsageList _ _ => Usage
  | UserList => User
  end.

Definition list_operation_client (env : environment) (r : request)
    (op : list_operation) : M client :=
  match op with
  | FlavorList | FlavorListAdmin | KeypairList | ServerList | UsageList _ _ =>
      extras_api r
  | ImageListDetailed => glance_api env r
  | ServiceList => admin_api r
  | TokenListTenants _ => auth_api env
  | TenantList | UserList => account_api r
  end.

Definition list_operation_call (op : list_operation) : string * list value :=
  match op with
  | FlavorList | FlavorListAdmin => ("flavors.list", [])
  | ImageListDetailed => ("get_images_detailed", [])
  | KeypairList => ("keypairs.list", [])
  | ServerList => ("servers.list", [])
  | ServiceList => ("services.list", [])
  | TokenListTenants token => ("tenants.for_token", [token])
  | TenantList => ("tenants.list", [])
  | UsageList start end_ => ("usage.list", [start; end_])
  | UserList => ("users.list", [])
  end.

(** ** The operations on a single record *)

(** The operations whose remote call answers with one record that the
    function wraps, with their arguments. *)
Inductive item_operation :=
  | ConsoleCreate (instance_id kind : value)
  | FlavorGet (flavor_id : value)
  | ImageCreate (image_meta image_file : value)
  | KeypairCreate (name : value)
  | ServerCreate (name image flavor user_data key_name : value)
  | ServerGet (instance_id : value)
  | TenantCreate (tenant_id description enabled : value)
  | TenantGet (tenant_id : value)
  | TenantUpdate (tenant_id description enabled : value)
  | TokenCreate (tenant username password : value)
  | UsageGet (tenant_id start end_ : value)
  | UserCreate (user_id email password tenant_id : value)
  | UserGet (user_id : value)
  | UserUpdateEmail (user_id email : value)
  | UserUpdatePassword (user_id password : value)
  | UserUpdateTenant (user_id tenant_id : value).

Definition run_item_operation (env : environment) (r : request)
    (op : item_operation) : M value :=
  match op with
  | ConsoleCreate i k => console_create env r i k
  | FlavorGet f => flavor_get env r f
  | ImageCreate m f => image_create env r m f
  | KeypairCreate n => keypair_create env r n
  | ServerCreate n i f u k => server_create env r n i f u k
  | ServerGet i => server_get env r i
  | TenantCreate t d e => tenant_create env r t d e
  | TenantGet t => tenant_get env r t
  | TenantUpdate t d e => tenant_update env r t d e
  | TokenCreate t u p => token_create env r t u p
  | UsageGet t s e => usage_get env r t s e
  | UserCreate u e p t => user_create env r u e p t
  | UserGet u => user_get env r u
  | UserUpdateEmail u e => user_update_email env r u e
  | UserUpdatePassword u p => user_update_password env r u p
  | UserUpdateTenant u t => user_update_tenant env r u t
  end.

Definition item_operation_class (op : item_operation) : wrapper_class :=
  match op with
  | ConsoleCreate _ _ => Console
  | FlavorGet _ => Flavor
  | ImageCreate _ _ => Image
  | KeypairCreate _ => KeyPair
  | ServerCreate _ _ _ _ _ | ServerGet _ => Server
  | TenantCreate _ _ _ | TenantGet _ | TenantUpdate _ _ _ => Tenant
  | TokenCreate _ _ _ => Token
  | UsageGet _ _ _ => Usage
  | UserCreate _ _ _ _ | UserGet _ | UserUpdateEmail _ _
  | UserUpdatePassword _ _ | UserUpdateTenant _ _ => User
  end.

Definition item_operation_client (env : environment) (r : request)
    (op : item_operation) : M client :=
  match op with
  | ConsoleCreate _ _ | KeypairCreate _ | ServerCreate _ _ _ _ _
  | UsageGet _ _ _ => extras_api r
  | FlavorGet _ | ServerGet _ => compute_api r
  | ImageCreate _ _ => glance_api env r
  | TokenCreate _ _ _ => auth_api env
  | _ => account_api r
  end.

Definition item_operation_call (op : item_operation)
  : string * list value * list (string * value) :=
  match op with
  | ConsoleCreate i k => ("consoles.create", [i; k], [])
  | FlavorGet f => ("flavors.get", [f], [])
  | ImageCreate m f => ("add_image", [m; f], [])
  | KeypairCreate n => ("keypairs.create", [n], [])
  | ServerCreate n i f u k =>
      ("servers.create", [n; i; f], [("user_data", u); ("key_name", k)])
  | ServerGet i => ("servers.get", [i], [])
  | TenantCreate t d e => ("tenants.create", [t; d; e], [])
  | TenantGet t => ("tenants.get", [t], [])
  | TenantUpdate t d e => ("tenants.update", [t; d; e], [])
  | TokenCreate t u p => ("tokens.create", [t; u; p], [])
  | UsageGet t s e => ("usage.get", [t; s; e], [])
  | UserCreate u e p t => ("users.create", [u; e; p; t], [])
  | UserGet u => ("users.get", [u], [])
  | UserUpdateEmail u e => ("users.update_email", [u; e], [])
  | UserUpdatePassword u p => ("users.update_password", [u; p], [])
  | UserUpdateTenant u t => ("users.update_tenant", [u; t], [])
  end.

(** The delete operations, with their arguments. *)
Inductive delete_operation :=
  | FlavorDelete (flavor_id purge : value)
  | ImageDelete (image_id : value)
  | KeypairDelete (keypair_id : value)
  | ServerDelete (instance : value)
  | UserDelete (user_id : value).

Definition run_delete_operation (env : environment) (r : request)
    (op : delete_operation) : M value :=
  match op with
  | FlavorDelete f p => flavor_delete env r f p
  | ImageDelete i => image_delete env r i
  | KeypairDelete k => keypair_delete env r k
  | ServerDelete i => server_delete env r i
  | UserDelete u => user_delete env r u
  end.

Definition delete_operation_client (env : environment) (r : request)
    (op : delete_operation) : M client :=
  match op with
  | FlavorDelete _ _ => admin_api r
  | ImageDelete _ => glance_api env r
  | KeypairDelete _ => extras_api r
  | ServerDelete _ => compute_api r
  | UserDelete _ => account_api r
  end.

Definition delete_operation_call (op : delete_operation) : string * list value :=
  match op with
  | FlavorDelete f p => ("flavors.delete", [f; p])
  | ImageDelete i => ("delete_image", [i])
  | KeypairDelete k => ("keypairs.delete", [k])
  | ServerDelete i => ("servers.delete", [i])
  | UserDelete u => ("users.delete", [u])
  end.

(** ** Token detail responses and tenant records *)

(** A role record that carries a role identifier. *)
Definition has_role_id (role : value) : Prop :=
  ∃ d id, role = VDict d ∧ d !! "roleId" = Some id.

(** A role record whose identifier is the string [Admin]. *)
Definition is_admin_role (role : value) : Prop :=
  ∃ d, role = VDict d ∧ d !! "roleId" = Some (VStr "Admin").

(** A well-formed token detail response: the user record under [auth] with
    its tenant, its name and its role list. *)
Definition token_detail (data tenant username : value) (roles : list value)
  : Prop :=
  ∃ dd da u,
    data = VDict dd ∧ dd !! "auth" = Some (VDict da)
    ∧ da !! "user" = Some (VDict u)
    ∧ u !! "roleRefs" = Some (VList roles)
    ∧ u !! "tenantId" = Some tenant
    ∧ u !! "username" = Some username
    ∧ Forall has_role_id roles.

(** The string form of the identifier of a tenant record, when it has
    one. *)
Definition tenant_key (env : environment) (t : value) : option string :=
  match result (py_getattr t "id") with
  | Ok id =>
      match py_str env id with
      | Ok s => Some s
      | Raise _ => None
      end
  | Raise _ => None
  end.

(** A tenant record with an identifier whose string form is not [s0]. *)
Definition other_tenant (env : environment) (s0 : string) (t : value) : Prop :=
  ∃ s, tenant_key env t = Some s ∧ s ≠ s0.

(** ** The session-bound client factories *)

(** The factories that build a client from the session, lines 163-206,
    with the service each resolves, the endpoint flavour it asks for, the
    log message it leaves and the client it constructs. *)
Inductive session_factory := ComputeApi | AccountApi | AdminApi | ExtrasApi.

Definition run_session_factory (r : request) (f : session_factory) : M client :=
  match f with
  | ComputeApi => compute_api r
  | AccountApi => account_api r
  | AdminApi => admin_api r
  | ExtrasApi => extras_api r
  end.

Definition factory_service (f : session_factory) : string :=
  match f with
  | AccountApi => "keystone"
  | _ => "nova"
  end.

Definition factory_admin (f : session_factory) : bool :=
  match f with
  | AccountApi | AdminApi => true
  | ComputeApi | ExtrasApi => false
  end.

Definition factory_message (f : session_factory) : message :=
  match f with
  | ComputeApi => ComputeConnection
  | AccountApi => AccountConnection
  | AdminApi => AdminConnection
  | ExtrasApi => ExtrasConnection
  end.

Definition factory_client (f : session_factory) (token url : value) : client :=
  match f with
  | ComputeApi => Compute token url
  | AccountApi => Account token url
  | AdminApi => Admin token url
  | ExtrasApi => Extras token url
  end.

(** ** Shapes of payloads and remote answers *)

(** Values of the built-in data types: they have no [__getattr__] method
    to call. *)
Definition no_getattr (p : value) : Prop :=
  match p with
  | VNone | VBool _ | VInt _ | VStr _ | VList _ | VDict _ => True
  | _ => False
  end.

(** [None] and numbers: values a [for] loop cannot run over. *)
Definition not_iterable (v : value) : Prop :=
  match v with
  | VNone | VBool _ | VInt _ => True
  | _ => False
  end.

(** A raw tenant record whose identifier has the string form [s]. *)
Definition raw_tenant (env : environment) (s : string) (t : value) : Prop :=
  ∃ cls fields id,
    t = VRaw cls fields ∧ fields !! "id" = Some id ∧ py_str env id = Ok s.

(** ** Variations of the concrete backend *)

Definition with_remote (env : environment)
    (f : client → string → list value → list (string * value) → res value)
  : environment :=
  {| OPENSTACK_KEYSTONE_URL := OPENSTACK_KEYSTONE_URL env;
     OPENSTACK_ADMIN_TOKEN := OPENSTACK_ADMIN_TOKEN env;
     py_str := py_str env;
     py_int := py_int env;
     urlparse := urlparse env;
     remote := f;
     http_get := http_get env;
     json_loads := json_loads env;
     py_call := py_call env;
     REBOOT_HARD := REBOOT_HARD env |}.

Definition with_urlparse (env : environment)
    (f : value → res (value * value)) : environment :=
  {| OPENSTACK_KEYSTONE_URL := OPENSTACK_KEYSTONE_URL env;
     OPENSTACK_ADMIN_TOKEN := OPENSTACK_ADMIN_TOKEN env;
     py_str := py_str env;
     py_int := py_int env;
     urlparse := f;
     remote := remote env;
     http_get := http_get env;
     json_loads := json_loads env;
     py_call := py_call env;
     REBOOT_HARD := REBOOT_HARD env |}.

(** A backend that is down, one whose glance endpoint carries no port, and
    one that answers every call with a pair of image metadata and data. *)
Definition down_env : environment :=
  with_remote (demo_env []) (λ _ _ _ _, Raise (RemoteError (VStr "503"))).

Definition portless_env : environment :=
  with_urlparse (demo_env []) (λ _, Ok (VStr "glance", VNone)).

Definition demo_image : value :=
  VDict {[ "id" := VInt 9; "name" := VStr "lucid";
           "properties" := VDict {[ "kernel_id" := VInt 3 ]} ]}.

Definition image_env : environment :=
  with_remote (demo_env []) (λ _ _ _ _, Ok (VList [demo_image; VStr "data"])).

(** A session that has a catalog and no token. *)
Definition anonymous_request : request :=
  {| session := {[ "serviceCatalog" := VDict demo_catalog ]} |}.

(** ** Basic facts about computations *)

(** Closed decidable goals (membership in a whitelist, equality of names)
    are settled by evaluation. *)
Ltac by_evaluation := apply (bool_decide_unpack _); vm_compute; exact I.

(** Breaks a membership hypothesis in a literal list into its cases. *)
Ltac each_member H :=
  repeat (apply elem_of_cons in H as [-> | H]);
  try (apply elem_of_nil in H; destruct H).

Lemma bind_ret_l {A B} (a : A) (f : A → M B) : bind (ret a) f = f a.
Proof. unfold bind, ret. destruct (f a) as [tr r]. reflexivity. Qed.

Lemma bind_Ok {A B} (m : M A) (f : A → M B) tr a :
  m = (tr, Ok a) → bind m f = ((tr ++ (f a).1)%list, (f a).2).
Proof. intros ->. unfold bind. destruct (f a). reflexivity. Qed.

Lemma bind_Raise {A B} (m : M A) (f : A → M B) tr e :
  m = (tr, Raise e) → bind m f = (tr, Raise e).
Proof. intros ->. reflexivity. Qed.

Lemma result_bind_Ok {A B} (m : M A) (f : A → M B) a :
  result m = Ok a → result (bind m f) = result (f a).
Proof.
  destruct m as [tr r]. unfold result. simpl. intros ->.
  destruct (f a). reflexivity.
Qed.

Lemma result_bind_Raise {A B} (m : M A) (f : A → M B) e :
  result m = Raise e → result (bind m f) = Raise e.
Proof. destruct m as [tr r]. unfold result. simpl. intros ->. reflexivity. Qed.

Lemma result_lift {A} (r : res A) : result (lift r) = r.
Proof. reflexivity. Qed.

(** ** Wrappers *)

Lemma py_eq_str_true v s : py_eq_str v s = true → v = VStr s.
Proof.
  destruct v; simpl; try discriminate.
  intros H. apply bool_decide_eq_true in H. by subst.
Qed.

Lemma in_attrs_str k s : in_attrs k (VStr s) = bool_decide (s ∈ attrs k).
Proof. reflexivity. Qed.

(** A name outside the whitelist is refused by [__getattr__], whatever the
    payload answers. *)
Lemma wrapper_getattr_unknown k p f g attr :
  in_attrs k attr = false →
  wrapper_getattr k p f g attr
  = ([unknown_log k p attr], Raise (AttributeError attr)).
Proof.
  intros Hout.
  assert (HI : k = Image → py_eq_str attr "properties" = false).
  { intros ->. destruct (py_eq_str attr "properties") eqn:E; [|done].
    apply py_eq_str_true in E. subst attr. vm_compute in Hout. done. }
  destruct k; simpl;
    unfold Image_getattr, APIResourceWrapper_getattr, APIDictWrapper_getattr;
    rewrite ?HI by reflexivity; rewrite Hout; reflexivity.
Qed.

(** Iterating over a dictionary wrapper fails at the first probe. *)
Lemma py_iter_dict_wrapper k p :
  base_of k = APIDictWrapper →
  py_iter (VWrap k p)
  = ([unknown_log k p (VInt 0)], Raise (AttributeError (VInt 0))).
Proof.
  intros Hb. unfold py_iter. rewrite Hb. cbn [py_getitem]. rewrite Hb.
  by rewrite (wrapper_getattr_unknown k p _ _ (VInt 0) eq_refl).
Qed.

Lemma normal_lookup_None k p name :
  normal_lookup k p name = None ↔ name ∉ resolved_names k.
Proof.
  unfold normal_lookup, resolved_names.
  rewrite !elem_of_cons, !elem_of_app, !elem_of_cons, elem_of_nil.
  repeat case_decide;
    (split; [intros Hn; try discriminate Hn | intros Hn; try (exfalso; tauto)]);
    tauto.
Qed.

(** C1, as amended: a name that is neither whitelisted nor found by ordinary
    attribute lookup (the instance attribute, the class attributes and
    methods, what [object] provides) is refused with [AttributeError]
    carrying the name, after one debug record; no value is returned. *)
Theorem getattr_unknown_raises (k : wrapper_class) (p : value) (name : string) :
  name ∉ attrs k →
  normal_lookup k p name = None →
  py_getattr (VWrap k p) name
  = ([unknown_log k p (VStr name)], Raise (AttributeError (VStr name))).
Proof.
  intros Hout Hnone. unfold py_getattr. rewrite Hnone. simpl.
  apply wrapper_getattr_unknown.
  rewrite in_attrs_str. by apply bool_decide_eq_false.
Qed.

Lemma getattr_unknown_raises_witness :
  ("swap" ∉ attrs Flavor) ∧
  normal_lookup Flavor (VRaw "Flavor" {[ "swap" := VInt 0 ]}) "swap" = None ∧
  py_getattr (VWrap Flavor (VRaw "Flavor" {[ "swap" := VInt 0 ]})) "swap"
  = ([ELog DEBUG UnknownAttribute [VStr "swap"; VClass Flavor; VType "Flavor"]],
     Raise (AttributeError (VStr "swap"))).
Proof.
  assert (H1 : "swap" ∉ attrs Flavor) by by_evaluation.
  assert (H2 : normal_lookup Flavor (VRaw "Flavor" {[ "swap" := VInt 0 ]}) "swap"
               = None) by reflexivity.
  exact (conj H1 (conj H2 (getattr_unknown_raises Flavor _ "swap" H1 H2))).
Defined.

(** C1 as stated fails: [apiresource] is outside the whitelist of [Console],
    yet reading it hands out the raw payload. *)
Lemma getattr_unlisted_name_returns :
  ¬ (∀ (k : wrapper_class) (p : value) (name : string),
        name ∉ attrs k →
        ∃ tr, py_getattr (VWrap k p) name
              = (tr, Raise (AttributeError (VStr name)))).
Proof.
  intros H.
  destruct (H Console (VRaw "Console" ∅) "apiresource") as [tr Htr].
  - by_evaluation.
  - vm_compute in Htr. discriminate Htr.
Qed.

Lemma wrap_neq (k : wrapper_class) (v : value) : VWrap k v ≠ v.
Proof.
  revert k. induction v; intros k0 H; try discriminate.
  injection H as -> H. by apply (IHv k).
Qed.

(** Subscription of a dictionary payload by a key it holds. *)
Lemma py_getitem_dict d s v :
  d !! s = Some v → py_getitem (VDict d) (VStr s) = ret v.
Proof. intros H. simpl. by rewrite H. Qed.

(** C8: whenever the raw image dictionary has the key [properties], reading
    [properties] from the [Image] wrapper yields an [ImageProperties] wrapper
    around the raw sub-mapping and not the sub-mapping itself; nothing is
    logged.  The sub-mapping may be empty. *)
Theorem Image_properties_wrapped (d : gmap string value) (v : value) :
  d !! "properties" = Some v →
  py_getattr (VWrap Image (VDict d)) "properties"
  = ([], Ok (VWrap ImageProperties v))
  ∧ VWrap ImageProperties v ≠ v.
Proof.
  intros Hd. split; [|apply wrap_neq].
  unfold py_getattr.
  replace (normal_lookup Image (VDict d) "properties") with (@None value)
    by reflexivity.
  cbn [call_getattr wrapper_getattr]. unfold Image_getattr.
  replace (py_eq_str (VStr "properties") "properties") with true by reflexivity.
  unfold APIDictWrapper_getattr.
  replace (in_attrs Image (VStr "properties")) with true by reflexivity.
  rewrite (py_getitem_dict _ _ _ Hd). by rewrite bind_ret_l.
Qed.

Lemma Image_properties_wrapped_witness :
  ({[ "properties" := VDict ∅ ]} : gmap string value) !! "properties"
  = Some (VDict ∅)
  ∧ py_getattr (VWrap Image (VDict {[ "properties" := VDict ∅ ]})) "properties"
    = ([], Ok (VWrap ImageProperties (VDict ∅))).
Proof.
  assert (H : ({[ "properties" := VDict ∅ ]} : gmap string value) !! "properties"
              = Some (VDict ∅)) by reflexivity.
  exact (conj H (proj1 (Image_properties_wrapped _ _ H))).
Defined.

(** Apart from [attrs] on [Server], no whitelisted name is also found by
    ordinary lookup. *)
Lemma whitelisted_not_resolved k p name :
  name ∈ attrs k →
  ¬ (k = Server ∧ name = "attrs") →
  normal_lookup k p name = None.
Proof.
  intros Hin Hex. apply normal_lookup_None.
  destruct k; cbn [attrs] in Hin; each_member Hin;
    first [ by_evaluation | exfalso; apply Hex; done ].
Qed.

(** A whitelisted name reaches the payload through [__getattr__]. *)
Lemma wrapper_getattr_whitelisted k p name v :
  name ∈ attrs k →
  payload_lookup k p name = Some v →
  call_getattr (VWrap k p) (VStr name) = ([], Ok (exposed k name v)).
Proof.
  intros Hin Hp.
  assert (Hw : in_attrs k (VStr name) = true)
    by (rewrite in_attrs_str; by apply bool_decide_eq_true).
  unfold payload_lookup in Hp. cbn [call_getattr].
  destruct (base_of k) eqn:Hb, p; try discriminate Hp.
  - (* a resource wrapper around a raw resource *)
    assert (Hk : k ≠ Image ∧ k ≠ ImageProperties)
      by (split; intros ->; discriminate Hb).
    unfold exposed. rewrite decide_False by (intros [? _]; tauto).
    destruct k; try tauto; cbn [wrapper_getattr];
      unfold APIResourceWrapper_getattr; rewrite Hw;
      cbn [call_getattr]; rewrite Hp; reflexivity.
  - (* a dictionary wrapper around a dictionary *)
    destruct k; try discriminate Hb; cbn [wrapper_getattr].
    + unfold Image_getattr, APIDictWrapper_getattr. rewrite Hw.
      rewrite (py_getitem_dict _ _ _ Hp), bind_ret_l. unfold exposed.
      destruct (py_eq_str (VStr name) "properties") eqn:E.
      * apply py_eq_str_true in E. injection E as ->.
        rewrite decide_True by done. reflexivity.
      * rewrite decide_False; [reflexivity|].
        intros [_ ->]. discriminate E.
    + unfold APIDictWrapper_getattr. rewrite Hw.
      rewrite (py_getitem_dict _ _ _ Hp). unfold exposed.
      rewrite decide_False by (intros [? _]; discriminate). reflexivity.
Qed.

(** C3, as amended: on a payload that defines the whitelisted field [name],
    reading [name] from the wrapper returns the payload's value, except that
    [Image] hands out [properties] wrapped as [ImageProperties]; nothing is
    logged.  The name [attrs] on [Server] is left aside. *)
Theorem getattr_whitelisted (k : wrapper_class) (p : value) (name : string)
    (v : value) :
  name ∈ attrs k →
  ¬ (k = Server ∧ name = "attrs") →
  payload_lookup k p name = Some v →
  py_getattr (VWrap k p) name = ([], Ok (exposed k name v)).
Proof.
  intros Hin Hex Hp. unfold py_getattr.
  rewrite (whitelisted_not_resolved _ _ _ Hin Hex).
  by apply wrapper_getattr_whitelisted.
Qed.

Lemma getattr_whitelisted_witness :
  ("vcpus" ∈ attrs Flavor) ∧
  ¬ (Flavor = Server ∧ "vcpus" = "attrs") ∧
  payload_lookup Flavor (VRaw "Flavor" {[ "vcpus" := VInt 4 ]}) "vcpus"
  = Some (VInt 4) ∧
  py_getattr (VWrap Flavor (VRaw "Flavor" {[ "vcpus" := VInt 4 ]})) "vcpus"
  = ([], Ok (VInt 4)).
Proof.
  assert (H1 : "vcpus" ∈ attrs Flavor) by by_evaluation.
  assert (H2 : ¬ (Flavor = Server ∧ "vcpus" = "attrs"))
    by (intros [H _]; discriminate H).
  assert (H3 : payload_lookup Flavor (VRaw "Flavor" {[ "vcpus" := VInt 4 ]})
                 "vcpus" = Some (VInt 4)) by reflexivity.
  exact (conj H1 (conj H2 (conj H3
           (getattr_whitelisted Flavor _ "vcpus" (VInt 4) H1 H2 H3)))).
Defined.

(** C3 as stated fails: the image dictionary below defines every whitelisted
    key, and reading [properties] does not return the dictionary's value but
    a wrapper around it. *)
Lemma getattr_whitelisted_not_identity :
  ¬ (∀ (k : wrapper_class) (p : value) (name : string) (v : value),
        (∀ n, n ∈ attrs k → is_Some (payload_lookup k p n)) →
        name ∈ attrs k →
        payload_lookup k p name = Some v →
        result (py_getattr (VWrap k p) name) = Ok v).
Proof.
  intros H.
  specialize (H Image (VDict (full_payload Image (VDict ∅))) "properties"
                (VDict ∅)).
  assert (Hr : result (py_getattr
                 (VWrap Image (VDict (full_payload Image (VDict ∅))))
                 "properties") = Ok (VDict ∅)).
  { apply H.
    - intros n Hn. cbn [attrs] in Hn. each_member Hn; vm_compute; eauto.
    - by_evaluation.
    - reflexivity. }
  vm_compute in Hr. discriminate Hr.
Qed.

(** On [Server] the whitelisted name [attrs] never reaches the payload: the
    class attribute of the same name, the whitelist itself, is found first. *)
Lemma Server_attrs_shadowed (p : value) :
  py_getattr (VWrap Server p) "attrs" = ([], Ok (VList (VStr <$> attrs Server))).
Proof. reflexivity. Qed.

Example Server_attrs_shadowed_example :
  payload_lookup Server (VRaw "Server" (full_payload Server (VInt 7))) "attrs"
  = Some (VInt 7)
  ∧ result (py_getattr (VWrap Server (VRaw "Server" (full_payload Server (VInt 7))))
              "attrs") ≠ Ok (VInt 7).
Proof. split; [reflexivity|]. vm_compute. discriminate. Qed.

(** C2, as amended: on a dictionary wrapper, [get] returns the payload's
    value for a key that is whitelisted and present ([properties] of [Image]
    wrapped as [ImageProperties]), and exactly the supplied default, after
    one debug record, for a key that is not whitelisted; in both cases no
    exception leaves [get].  The whitelisted key that the payload lacks is
    left aside. *)
Theorem get_with_default (k : wrapper_class) (d : gmap string value)
    (item default : value) :
  base_of k = APIDictWrapper →
  (∀ s v, item = VStr s → s ∈ attrs k → d !! s = Some v →
     APIDictWrapper_get k (VDict d) item default = ([], Ok (exposed k s v)))
  ∧ (in_attrs k item = false →
     APIDictWrapper_get k (VDict d) item default
     = ([unknown_log k (VDict d) item], Ok default)).
Proof.
  intros Hb. unfold APIDictWrapper_get. split.
  - intros s v -> Hin Hd.
    assert (Hp : payload_lookup k (VDict d) s = Some v)
      by (unfold payload_lookup; by rewrite Hb).
    change (wrapper_getattr k (VDict d) (call_getattr (VDict d))
              (py_getitem (VDict d)) (VStr s))
      with (call_getattr (VWrap k (VDict d)) (VStr s)).
    rewrite (wrapper_getattr_whitelisted k (VDict d) s v Hin Hp). reflexivity.
  - intros Hout. rewrite (wrapper_getattr_unknown _ _ _ _ _ Hout). reflexivity.
Qed.

Lemma get_with_default_witness :
  base_of ImageProperties = APIDictWrapper
  ∧ APIDictWrapper_get ImageProperties (VDict {[ "kernel_id" := VInt 3 ]})
      (VStr "kernel_id") VNone = ([], Ok (VInt 3))
  ∧ APIDictWrapper_get ImageProperties (VDict {[ "kernel_id" := VInt 3 ]})
      (VStr "owner") (VStr "nobody")
    = ([ELog DEBUG UnknownItem [VStr "owner"; VClass ImageProperties]],
       Ok (VStr "nobody")).
Proof.
  assert (Hb : base_of ImageProperties = APIDictWrapper) by reflexivity.
  assert (Hin : "kernel_id" ∈ attrs ImageProperties) by by_evaluation.
  split; [exact Hb|]. split.
  - exact (proj1 (get_with_default ImageProperties {[ "kernel_id" := VInt 3 ]}
                    (VStr "kernel_id") VNone Hb)
             "kernel_id" (VInt 3) eq_refl Hin eq_refl).
  - exact (proj2 (get_with_default ImageProperties {[ "kernel_id" := VInt 3 ]}
                    (VStr "owner") (VStr "nobody") Hb) eq_refl).
Defined.

(** C2 as stated fails: [properties] is whitelisted on [Image] and present
    in the payload below, and [get] does not return the payload's value but
    a wrapper around it. *)
Lemma get_not_payload_value :
  ¬ (∀ (k : wrapper_class) (d : gmap string value) (key : string)
       (default : value),
        base_of k = APIDictWrapper →
        (∀ v, key ∈ attrs k → d !! key = Some v →
           result (APIDictWrapper_get k (VDict d) (VStr key) default) = Ok v)
        ∧ (d !! key = None ∨ key ∉ attrs k →
           result (APIDictWrapper_get k (VDict d) (VStr key) default)
           = Ok default)).
Proof.
  intros H.
  destruct (H Image {[ "properties" := VDict ∅ ]} "properties" VNone eq_refl)
    as [Hv _].
  specialize (Hv (VDict ∅)).
  assert (Hr : result (APIDictWrapper_get Image
                 (VDict {[ "properties" := VDict ∅ ]}) (VStr "properties") VNone)
               = Ok (VDict ∅)).
  { apply Hv; [by_evaluation | reflexivity]. }
  vm_compute in Hr. discriminate Hr.
Qed.

(** X1: [get] catches [AttributeError] only: a whitelisted key that the
    payload lacks leaves it as a [KeyError], not as the default, and nothing
    is logged. *)
Lemma get_absent_key_raises (k : wrapper_class) (d : gmap string value)
    (s : string) (default : value) :
  base_of k = APIDictWrapper →
  s ∈ attrs k →
  d !! s = None →
  APIDictWrapper_get k (VDict d) (VStr s) default
  = ([], Raise (KeyError (VStr s))).
Proof.
  intros Hb Hin Hd.
  assert (Hw : in_attrs k (VStr s) = true)
    by (rewrite in_attrs_str; by apply bool_decide_eq_true).
  unfold APIDictWrapper_get.
  destruct k; try discriminate Hb; cbn [wrapper_getattr];
    unfold Image_getattr, APIDictWrapper_getattr; rewrite Hw;
    cbn [py_getitem]; rewrite Hd.
  - destruct (py_eq_str (VStr s) "properties"); reflexivity.
  - reflexivity.
Qed.

Example get_absent_key_raises_example :
  APIDictWrapper_get Image (VDict ∅) (VStr "name") (VStr "unnamed")
  = ([], Raise (KeyError (VStr "name"))).
Proof. reflexivity. Qed.

(** ** Endpoint resolution *)

Lemma seq_index_0 {A} (x : A) (l : list A) : seq_index (x :: l) 0 = Some x.
Proof.
  unfold seq_index. rewrite bool_decide_eq_true_2; [reflexivity|].
  cbn [length]. lia.
Qed.

Lemma py_getitem_first x l : py_getitem (VList (x :: l)) (VInt 0) = ret x.
Proof. cbn [py_getitem as_index]. by rewrite seq_index_0. Qed.

Lemma py_getitem_dict_absent d s :
  d !! s = None → py_getitem (VDict d) (VStr s) = raise (KeyError (VStr s)).
Proof. intros H. simpl. by rewrite H. Qed.

(** C4: when the catalog lists the service with a non-empty endpoint list,
    [url_for] returns the admin URL of the first descriptor if the admin flag
    is set and its internal URL otherwise; when the catalog does not list the
    service, [url_for] raises [KeyError]. *)
Theorem url_for_resolution (r : request) (catalog : gmap string value)
    (service_name : string) (admin : bool) :
  session r !! "serviceCatalog" = Some (VDict catalog) →
  (∀ ep rest u,
     catalog !! service_name = Some (VList (VDict ep :: rest)) →
     ep !! url_key admin = Some u →
     url_for r service_name admin = ([], Ok u))
  ∧ (catalog !! service_name = None →
     url_for r service_name admin
     = ([], Raise (KeyError (VStr service_name)))).
Proof.
  intros Hcat. unfold url_for, session_getitem. rewrite Hcat, bind_ret_l.
  split.
  - intros ep rest u Hs Hu.
    destruct admin; cbn [url_key] in Hu;
      rewrite (py_getitem_dict _ _ _ Hs), bind_ret_l,
              py_getitem_first, bind_ret_l;
      exact (py_getitem_dict _ _ _ Hu).
  - intros Hs.
    destruct admin; rewrite (py_getitem_dict_absent _ _ Hs); reflexivity.
Qed.

Lemma url_for_resolution_witness :
  session demo_request !! "serviceCatalog" = Some (VDict demo_catalog)
  ∧ url_for demo_request "nova" true = ([], Ok (VStr "http://nova:8774/admin"))
  ∧ url_for demo_request "swift" true = ([], Raise (KeyError (VStr "swift"))).
Proof.
  assert (H : session demo_request !! "serviceCatalog" = Some (VDict demo_catalog))
    by reflexivity.
  split; [exact H|]. split.
  - exact (proj1 (url_for_resolution demo_request demo_catalog "nova" true H)
             _ _ (VStr "http://nova:8774/admin") eq_refl eq_refl).
  - exact (proj2 (url_for_resolution demo_request demo_catalog "swift" true H)
             eq_refl).
Defined.

(** ** List-returning operations *)

Lemma call_then_wrap env (m : M client) tr c meth args k xs :
  m = (tr, Ok c) →
  remote env c meth args [] = Ok (VList xs) →
  (let* c := m in
   let* xs := call env c meth args [] in
   wrap_each k xs)
  = ((tr ++ [ECall c meth args []])%list, Ok (VList (VWrap k <$> xs))).
Proof.
  intros -> Hr. unfold bind, call, emit, lift, wrap_each, py_iter, ret.
  rewrite Hr. reflexivity.
Qed.

(** C7: when the remote call of a list-returning operation answers with a
    sequence of [N] raw payloads, the operation returns [N] wrapped objects,
    the [i]-th wrapping the [i]-th payload; [N] may be 0. *)
Theorem list_operation_wraps_in_order (env : environment) (r : request)
    (op : list_operation) (tr : list event) (c : client) (xs : list value) :
  list_operation_client env r op = (tr, Ok c) →
  remote env c (list_operation_call op).1 (list_operation_call op).2 []
  = Ok (VList xs) →
  ∃ ys,
    result (run_list_operation env r op) = Ok (VList ys)
    ∧ length ys = length xs
    ∧ ∀ i, ys !! i = VWrap (list_operation_class op) <$> (xs !! i).
Proof.
  intros Hc Hr. exists (VWrap (list_operation_class op) <$> xs).
  split; [|split].
  - destruct op;
      cbn [list_operation_client list_operation_call list_operation_class
           run_list_operation fst snd] in Hc, Hr |- *;
      unfold flavor_list, flavor_list_admin, image_list_detailed, keypair_list,
             server_list, service_list, token_list_tenants, tenant_list,
             usage_list, user_list;
      by rewrite (call_then_wrap _ _ _ _ _ _ _ _ Hc Hr).
  - apply length_fmap.
  - intros i. apply list_lookup_fmap.
Qed.

Lemma list_operation_wraps_in_order_witness :
  ∃ ys,
    result (run_list_operation (demo_env []) demo_request FlavorList)
    = Ok (VList ys)
    ∧ length ys = length demo_flavors
    ∧ ∀ i, ys !! i = VWrap Flavor <$> (demo_flavors !! i).
Proof.
  exact (list_operation_wraps_in_order (demo_env []) demo_request FlavorList
           [ELog DEBUG ExtrasConnection
              [VStr "s3cr3t"; VStr "http://nova:8774/v1.1"]]
           (Extras (VStr "s3cr3t") (VStr "http://nova:8774/v1.1"))
           demo_flavors eq_refl eq_refl).
Defined.

(** C10: [flavor_list_admin] and [flavor_list] are the same computation:
    the same events, the same result.  With an extras client [c] and a raw
    flavor sequence [xs], that is the one call of [flavors.list] on [c] and
    the [Flavor] wrappers of [xs]. *)
Theorem flavor_list_admin_same (env : environment) (r : request) :
  flavor_list_admin env r = flavor_list env r
  ∧ ∀ tr c xs,
      extras_api r = (tr, Ok c) →
      remote env c "flavors.list" [] [] = Ok (VList xs) →
      flavor_list_admin env r
      = ((tr ++ [ECall c "flavors.list" [] []])%list,
         Ok (VList (VWrap Flavor <$> xs))).
Proof.
  split; [reflexivity|].
  intros tr c xs Hc Hr. unfold flavor_list_admin.
  exact (call_then_wrap _ _ _ _ _ _ _ _ Hc Hr).
Qed.

Lemma flavor_list_admin_same_witness :
  flavor_list_admin (demo_env []) demo_request
  = ([ELog DEBUG ExtrasConnection [VStr "s3cr3t"; VStr "http://nova:8774/v1.1"];
      ECall (Extras (VStr "s3cr3t") (VStr "http://nova:8774/v1.1"))
            "flavors.list" [] []],
     Ok (VList (VWrap Flavor <$> demo_flavors))).
Proof.
  exact (proj2 (flavor_list_admin_same (demo_env []) demo_request)
           [ELog DEBUG ExtrasConnection
              [VStr "s3cr3t"; VStr "http://nova:8774/v1.1"]]
           (Extras (VStr "s3cr3t") (VStr "http://nova:8774/v1.1"))
           demo_flavors eq_refl eq_refl).
Defined.

(** ** Operations that hand out the raw result *)

Lemma call_unwrapped env (m : M client) tr c meth args x :
  m = (tr, Ok c) →
  remote env c meth args [] = Ok x →
  (let* c := m in call env c meth args [])
  = ((tr ++ [ECall c meth args []])%list, Ok x).
Proof. intros -> Hr. unfold bind, call, emit, lift. rewrite Hr. reflexivity. Qed.

Lemma call_then_wrap_one env (m : M client) tr c meth args kwargs k x :
  m = (tr, Ok c) →
  remote env c meth args kwargs = Ok x →
  (let* c := m in
   let* x := call env c meth args kwargs in
   ret (VWrap k x))
  = ((tr ++ [ECall c meth args kwargs])%list, Ok (VWrap k x)).
Proof. intros -> Hr. unfold bind, call, emit, lift, ret. rewrite Hr. reflexivity. Qed.

(** X14: each of the sixteen create, get and update operations listed in
    [item_operation] returns the record its remote call answered wrapped in
    the class of the operation. *)
Lemma item_operation_wraps env r op tr c x :
  item_operation_client env r op = (tr, Ok c) →
  remote env c (item_operation_call op).1.1 (item_operation_call op).1.2
         (item_operation_call op).2 = Ok x →
  result (run_item_operation env r op) = Ok (VWrap (item_operation_class op) x).
Proof.
  intros Hc Hr.
  destruct op;
    cbn [item_operation_client item_operation_call item_operation_class
         run_item_operation fst snd] in Hc, Hr |- *;
    unfold console_create, flavor_get, image_create, keypair_create,
           server_create, server_get, tenant_create, tenant_get, tenant_update,
           token_create, usage_get, user_create, user_get, user_update_email,
           user_update_password, user_update_tenant;
    by rewrite (call_then_wrap_one _ _ _ _ _ _ _ _ _ Hc Hr).
Qed.

(** X15: each of the five delete operations returns what its remote call
    answered as it is, without a wrapper. *)
Lemma delete_operation_unwrapped env r op tr c x :
  delete_operation_client env r op = (tr, Ok c) →
  remote env c (delete_operation_call op).1 (delete_operation_call op).2 []
  = Ok x →
  result (run_delete_operation env r op) = Ok x.
Proof.
  intros Hc Hr.
  destruct op;
    cbn [delete_operation_client delete_operation_call run_delete_operation
         fst snd] in Hc, Hr |- *;
    unfold flavor_delete, image_delete, keypair_delete, server_delete,
           user_delete;
    by rewrite (call_unwrapped _ _ _ _ _ _ _ Hc Hr).
Qed.

(** [service_get] and [service_update] return what the admin client
    answered, without a [Services] wrapper around it. *)
Lemma service_get_unwrapped env r name tr c x :
  admin_api r = (tr, Ok c) →
  remote env c "services.get" [name] [] = Ok x →
  result (service_get env r name) = Ok x.
Proof.
  intros Hc Hr. unfold service_get.
  by rewrite (call_unwrapped _ _ _ _ _ _ _ Hc Hr).
Qed.

Lemma service_update_unwrapped env r name enabled tr c x :
  admin_api r = (tr, Ok c) →
  remote env c "services.update" [name; enabled] [] = Ok x →
  result (service_update env r name enabled) = Ok x.
Proof.
  intros Hc Hr. unfold service_update.
  by rewrite (call_unwrapped _ _ _ _ _ _ _ Hc Hr).
Qed.

(** C6 at a concrete backend: [service_list] wraps the service record in
    [Services], while [service_get] and [service_update] return the same
    record bare. *)
Theorem service_get_returns_raw :
  result (service_list (demo_env []) demo_request)
  = Ok (VList [VWrap Services demo_service])
  ∧ result (service_get (demo_env []) demo_request (VStr "nova-compute"))
    = Ok demo_service
  ∧ result (service_update (demo_env []) demo_request (VStr "nova-compute")
              (VBool false))
    = Ok demo_service
  ∧ demo_service ≠ VWrap Services demo_service.
Proof.
  repeat split; try reflexivity. intros H. symmetry in H. by apply wrap_neq in H.
Qed.

(** A [Server] wrapper exposes no [reboot]: once the server has been fetched,
    [server_reboot] ends in [AttributeError]. *)
Lemma server_reboot_raises env r instance_id hardness x :
  result (server_get env r instance_id) = Ok x →
  result (server_reboot env r instance_id hardness)
  = Raise (AttributeError (VStr "reboot")).
Proof.
  intros Hs. unfold server_reboot. rewrite (result_bind_Ok _ _ _ Hs).
  assert (∃ p, x = VWrap Server p) as [p ->].
  { unfold server_get in Hs. destruct (compute_api r) as [tr [c|e]];
      [|discriminate Hs].
    unfold bind at 1 in Hs.
    destruct (call env c "servers.get" [instance_id] []) as [tr' [y|e]];
      [|discriminate Hs].
    cbn in Hs. injection Hs as <-. eauto. }
  apply result_bind_Raise. reflexivity.
Qed.

(** ** Token detail *)

Lemma py_eq_str_spec v s : py_eq_str v s = true ↔ v = VStr s.
Proof.
  split; [apply py_eq_str_true|]. intros ->. simpl. by apply bool_decide_eq_true.
Qed.

(** The loop sets the flag once an [Admin] role is met and never clears
    it. *)
Lemma scan_roles_spec roles admin :
  Forall has_role_id roles →
  ∃ b, scan_roles roles admin = ret b
       ∧ (b = true ↔ admin = true ∨ Exists is_admin_role roles).
Proof.
  intros Hwf. revert admin.
  induction Hwf as [|role roles (d & id & -> & Hid) _ IH]; intros admin.
  - exists admin. split; [reflexivity|]. rewrite Exists_nil. tauto.
  - cbn [scan_roles]. rewrite (py_getitem_dict _ _ _ Hid), bind_ret_l.
    assert (Hrole : is_admin_role (VDict d) ↔ py_eq_str id "Admin" = true).
    { rewrite py_eq_str_spec. split.
      - intros (d' & [= <-] & Hd). congruence.
      - intros ->. by exists d. }
    destruct (py_eq_str id "Admin").
    + destruct (IH true) as (b & -> & Hb). exists b. split; [done|].
      rewrite Exists_cons. rewrite Hb. intuition.
    + destruct (IH admin) as (b & -> & Hb). exists b. split; [done|].
      rewrite Exists_cons. rewrite Hb. intuition; discriminate.
Qed.

Lemma auth_user_field_Ok dd da u key v :
  dd !! "auth" = Some (VDict da) →
  da !! "user" = Some (VDict u) →
  u !! key = Some v →
  auth_user_field (VDict dd) key = ret v.
Proof.
  intros Ha Hu Hk. unfold auth_user_field.
  rewrite (py_getitem_dict _ _ _ Ha), bind_ret_l.
  rewrite (py_getitem_dict _ _ _ Hu), bind_ret_l.
  exact (py_getitem_dict _ _ _ Hk).
Qed.

(** C5: once the token detail response has been obtained and is well
    formed, [token_info] returns the mapping of [tenant] to the response's
    tenant id, [user] to its username and [admin] to a flag that is true
    exactly when some role of the user has the identifier [Admin]. *)
Theorem token_info_admin_flag (env : environment) (r : request)
    (token data tenant username : value) (roles : list value) :
  result (token_info_fetch env token) = Ok data →
  token_detail data tenant username roles →
  ∃ admin : bool,
    result (token_info env r token)
    = Ok (VDict {[ "tenant" := tenant; "user" := username;
                   "admin" := VBool admin ]})
    ∧ (admin = true ↔ Exists is_admin_role roles).
Proof.
  intros Hfetch (dd & da & u & -> & Ha & Hu & Hroles & Ht & Hn & Hwf).
  destruct (scan_roles_spec roles false Hwf) as (b & Hscan & Hb).
  exists b. split.
  - unfold token_info. rewrite (result_bind_Ok _ _ _ Hfetch).
    unfold token_info_extract.
    rewrite (auth_user_field_Ok _ _ _ _ _ Ha Hu Hroles), bind_ret_l.
    cbn [py_iter]. rewrite bind_ret_l, Hscan, bind_ret_l.
    rewrite (auth_user_field_Ok _ _ _ _ _ Ha Hu Ht), bind_ret_l.
    rewrite (auth_user_field_Ok _ _ _ _ _ Ha Hu Hn), bind_ret_l.
    reflexivity.
  - rewrite Hb. intuition; discriminate.
Qed.

Lemma demo_token_detail_well_formed roles :
  token_detail (demo_token_detail roles) (VStr "coffee") (VStr "joe")
    ((λ n, VDict {[ "roleId" := VStr n ]}) <$> roles).
Proof.
  do 3 eexists. split; [reflexivity|]. repeat (split; [reflexivity|]).
  apply Forall_fmap, Forall_forall. intros n _. by do 2 eexists.
Defined.

Lemma token_info_admin_flag_witness :
  ∃ admin : bool,
    result (token_info (demo_env ["Member"; "Admin"]) demo_request demo_token)
    = Ok (VDict {[ "tenant" := VStr "coffee"; "user" := VStr "joe";
                   "admin" := VBool admin ]})
    ∧ (admin = true
       ↔ Exists is_admin_role
           [VDict {[ "roleId" := VStr "Member" ]};
            VDict {[ "roleId" := VStr "Admin" ]}]).
Proof.
  exact (token_info_admin_flag (demo_env ["Member"; "Admin"]) demo_request
           demo_token (demo_token_detail ["Member"; "Admin"])
           (VStr "coffee") (VStr "joe") _ eq_refl
           (demo_token_detail_well_formed ["Member"; "Admin"])).
Defined.

Example token_info_examples :
  result (token_info (demo_env ["Member"; "Admin"]) demo_request demo_token)
  = Ok (VDict {[ "tenant" := VStr "coffee"; "user" := VStr "joe";
                 "admin" := VBool true ]})
  ∧ result (token_info (demo_env ["Member"; "admin"]) demo_request demo_token)
    = Ok (VDict {[ "tenant" := VStr "coffee"; "user" := VStr "joe";
                   "admin" := VBool false ]}).
Proof. split; reflexivity. Qed.

(** ** Tenant lookup *)

Lemma tenant_key_Some env t s :
  tenant_key env t = Some s →
  ∃ id, result (py_getattr t "id") = Ok id ∧ py_str env id = Ok s.
Proof.
  unfold tenant_key. destruct (result (py_getattr t "id")) as [id|]; [|done].
  destruct (py_str env id) as [s'|] eqn:E; [|done].
  intros [= ->]. eauto.
Qed.

(** One turn of the loop on a tenant whose identifier has a string form. *)
Lemma find_tenant_step env t rest tenant_id s s0 :
  tenant_key env t = Some s →
  py_str env tenant_id = Ok s0 →
  result (find_tenant env (t :: rest) tenant_id)
  = if bool_decide (s = s0) then Ok (Some (VWrap Tenant t))
    else result (find_tenant env rest tenant_id).
Proof.
  intros (id & Hid & Hs)%tenant_key_Some Hs0. cbn [find_tenant].
  rewrite (result_bind_Ok _ _ _ Hid).
  rewrite (result_bind_Ok _ _ s) by (by rewrite result_lift).
  rewrite (result_bind_Ok _ _ s0) by (by rewrite result_lift).
  by destruct (bool_decide (s = s0)).
Qed.

Lemma find_tenant_none env ts tenant_id s0 :
  py_str env tenant_id = Ok s0 →
  Forall (other_tenant env s0) ts →
  result (find_tenant env ts tenant_id) = Ok None.
Proof.
  intros Hs0. induction 1 as [|t ts (s & Hkey & Hne) _ IH]; [reflexivity|].
  rewrite (find_tenant_step _ _ _ _ _ _ Hkey Hs0).
  by rewrite bool_decide_eq_false_2.
Qed.

Lemma find_tenant_first env pre t post tenant_id s0 :
  py_str env tenant_id = Ok s0 →
  Forall (other_tenant env s0) pre →
  tenant_key env t = Some s0 →
  result (find_tenant env (pre ++ t :: post) tenant_id)
  = Ok (Some (VWrap Tenant t)).
Proof.
  intros Hs0 Hpre Hkey.
  induction Hpre as [|t' pre (s & Hkey' & Hne) _ IH]; cbn [app].
  - rewrite (find_tenant_step _ _ _ _ _ _ Hkey Hs0).
    by rewrite bool_decide_eq_true_2.
  - rewrite (find_tenant_step _ _ _ _ _ _ Hkey' Hs0).
    by rewrite bool_decide_eq_false_2.
Qed.

(** The steps of [token_get_tenant] before and after the loop. *)
Lemma token_get_tenant_loop env r tenant_id token ts :
  session r !! "token" = Some token →
  remote env (Auth (OPENSTACK_KEYSTONE_URL env)) "tenants.for_token" [token] []
  = Ok (VList ts) →
  result (token_get_tenant env r tenant_id)
  = match result (find_tenant env ts tenant_id) with
    | Ok (Some t) => Ok t
    | Ok None => Ok VNone
    | Raise e => Raise e
    end.
Proof.
  intros Htok Hr. unfold token_get_tenant.
  rewrite (result_bind_Ok _ _ (Auth (OPENSTACK_KEYSTONE_URL env))) by reflexivity.
  rewrite (result_bind_Ok _ _ token)
    by (unfold session_getitem; by rewrite Htok).
  rewrite (result_bind_Ok _ _ (VList ts))
    by (unfold call, emit, lift; rewrite Hr; reflexivity).
  rewrite (result_bind_Ok _ _ ts) by reflexivity.
  destruct (find_tenant env ts tenant_id) as [tr [[t|]|e]]; reflexivity.
Qed.

(** C9: let the tenants of the session token be [ts], each looked at having
    an identifier with a string form.  If none of them has the string form
    of [tenant_id], [token_get_tenant] returns [None] and raises nothing; if
    one has, the first such tenant is returned wrapped as [Tenant]. *)
Theorem token_get_tenant_result (env : environment) (r : request)
    (tenant_id token : value) (ts : list value) (s0 : string) :
  session r !! "token" = Some token →
  remote env (Auth (OPENSTACK_KEYSTONE_URL env)) "tenants.for_token" [token] []
  = Ok (VList ts) →
  py_str env tenant_id = Ok s0 →
  (Forall (other_tenant env s0) ts →
   result (token_get_tenant env r tenant_id) = Ok VNone)
  ∧ (∀ pre t post,
       ts = (pre ++ t :: post)%list →
       Forall (other_tenant env s0) pre →
       tenant_key env t = Some s0 →
       result (token_get_tenant env r tenant_id) = Ok (VWrap Tenant t)).
Proof.
  intros Htok Hr Hs0.
  rewrite (token_get_tenant_loop _ _ _ _ _ Htok Hr). split.
  - intros Hall. by rewrite (find_tenant_none _ _ _ _ Hs0 Hall).
  - intros pre t post -> Hpre Hkey.
    by rewrite (find_tenant_first _ _ _ _ _ _ Hs0 Hpre Hkey).
Qed.

Lemma demo_tenants_other s0 :
  s0 ≠ "1234" → s0 ≠ "coffee" → Forall (other_tenant (demo_env []) s0) demo_tenants.
Proof.
  intros H1 H2. repeat constructor.
  - exists "1234". split; [by vm_compute | congruence].
  - exists "coffee". split; [by vm_compute | congruence].
Defined.

Lemma token_get_tenant_result_witness :
  result (token_get_tenant (demo_env []) demo_request (VStr "tea")) = Ok VNone
  ∧ result (token_get_tenant (demo_env []) demo_request (VStr "coffee"))
    = Ok (VWrap Tenant (VRaw "Tenant" {[ "id" := VStr "coffee";
                                         "enabled" := VBool true ]})).
Proof.
  split.
  - apply (proj1 (token_get_tenant_result (demo_env []) demo_request
                    (VStr "tea") (VStr "s3cr3t") demo_tenants "tea"
                    eq_refl eq_refl eq_refl)).
    apply demo_tenants_other; discriminate.
  - apply (proj2 (token_get_tenant_result (demo_env []) demo_request
                    (VStr "coffee") (VStr "s3cr3t") demo_tenants "coffee"
                    eq_refl eq_refl eq_refl)
             [VRaw "Tenant" {[ "id" := VInt 1234; "enabled" := VBool true ]}]
             _ []).
    + reflexivity.
    + repeat constructor. exists "1234". split; [by vm_compute | discriminate].
    + by vm_compute.
Defined.

Example token_get_tenant_examples :
  token_get_tenant (demo_env []) demo_request (VInt 1234)
  = ([ELog DEBUG AuthConnection [VStr "http://keystone:5000/v2.0"];
      ECall (Auth (VStr "http://keystone:5000/v2.0")) "tenants.for_token"
            [VStr "s3cr3t"] []],
     Ok (VWrap Tenant (VRaw "Tenant" {[ "id" := VInt 1234;
                                        "enabled" := VBool true ]})))
  ∧ token_get_tenant (demo_env []) demo_request (VInt 7)
    = ([ELog DEBUG AuthConnection [VStr "http://keystone:5000/v2.0"];
        ECall (Auth (VStr "http://keystone:5000/v2.0")) "tenants.for_token"
              [VStr "s3cr3t"] [];
        ELog WARNING UnknownTenant [VInt 7]],
       Ok VNone).
Proof. split; vm_compute; reflexivity. Qed.

Lemma get_absent_key_raises_witness :
  base_of Image = APIDictWrapper
  ∧ ("name" ∈ attrs Image)
  ∧ (∅ : gmap string value) !! "name" = None
  ∧ APIDictWrapper_get Image (VDict ∅) (VStr "name") (VStr "unnamed")
    = ([], Raise (KeyError (VStr "name"))).
Proof.
  assert (Hin : "name" ∈ attrs Image) by by_evaluation.
  exact (conj eq_refl (conj Hin (conj eq_refl
           (get_absent_key_raises Image ∅ "name" (VStr "unnamed")
              eq_refl Hin eq_refl)))).
Defined.

(** ** Further properties of the wrappers *)

(** A whitelisted name, [attrs] on [Server] apart, is read through
    [__getattr__]. *)
Lemma py_getattr_whitelisted_step k p name :
  name ∈ attrs k →
  ¬ (k = Server ∧ name = "attrs") →
  py_getattr (VWrap k p) name = call_getattr (VWrap k p) (VStr name).
Proof.
  intros Hin Hex. unfold py_getattr.
  by rewrite (whitelisted_not_resolved _ _ _ Hin Hex).
Qed.

Lemma dict_class_not_Server k name :
  base_of k = APIDictWrapper → ¬ (k = Server ∧ name = "attrs").
Proof. intros Hb [-> _]. discriminate Hb. Qed.

(** [__getattr__] of a dictionary wrapper on a whitelisted key the
    dictionary lacks. *)
Lemma dict_wrapper_absent_key k d s :
  base_of k = APIDictWrapper →
  s ∈ attrs k →
  d !! s = None →
  call_getattr (VWrap k (VDict d)) (VStr s) = ([], Raise (KeyError (VStr s))).
Proof.
  intros Hb Hin Hd.
  assert (Hw : in_attrs k (VStr s) = true)
    by (rewrite in_attrs_str; by apply bool_decide_eq_true).
  cbn [call_getattr].
  destruct k; try discriminate Hb; cbn [wrapper_getattr];
    unfold Image_getattr, APIDictWrapper_getattr; rewrite Hw;
    rewrite (py_getitem_dict_absent _ _ Hd).
  - destruct (py_eq_str (VStr s) "properties"); reflexivity.
  - reflexivity.
Qed.

(** X2: on a dictionary wrapper, attribute access and subscription by a
    whitelisted key that the payload lacks both end in [KeyError] carrying
    the key, not in [AttributeError]; nothing is logged. *)
Theorem dict_wrapper_missing_key (k : wrapper_class) (d : gmap string value)
    (s : string) :
  base_of k = APIDictWrapper →
  s ∈ attrs k →
  d !! s = None →
  py_getattr (VWrap k (VDict d)) s = ([], Raise (KeyError (VStr s)))
  ∧ py_getitem (VWrap k (VDict d)) (VStr s) = ([], Raise (KeyError (VStr s))).
Proof.
  intros Hb Hin Hd. split.
  - rewrite (py_getattr_whitelisted_step _ _ _ Hin (dict_class_not_Server _ _ Hb)).
    by apply dict_wrapper_absent_key.
  - cbn [py_getitem]. rewrite Hb.
    exact (dict_wrapper_absent_key k d s Hb Hin Hd).
Qed.

Lemma dict_wrapper_missing_key_witness :
  base_of ImageProperties = APIDictWrapper
  ∧ ("kernel_id" ∈ attrs ImageProperties)
  ∧ ({[ "ramdisk_id" := VInt 4 ]} : gmap string value) !! "kernel_id" = None
  ∧ py_getattr (VWrap ImageProperties (VDict {[ "ramdisk_id" := VInt 4 ]}))
      "kernel_id"
    = ([], Raise (KeyError (VStr "kernel_id"))).
Proof.
  assert (Hin : "kernel_id" ∈ attrs ImageProperties) by by_evaluation.
  exact (conj eq_refl (conj Hin (conj eq_refl
           (proj1 (dict_wrapper_missing_key ImageProperties
                     {[ "ramdisk_id" := VInt 4 ]} "kernel_id"
                     eq_refl Hin eq_refl))))).
Defined.

(** X3: subscription of a dictionary wrapper checks the whitelist for every
    item, whatever the payload: an item outside the whitelist, the names
    [apidict], [attrs] and [get] included, is refused with [AttributeError]
    after one debug record. *)
Theorem getitem_enforces_whitelist (k : wrapper_class) (p item : value) :
  base_of k = APIDictWrapper →
  in_attrs k item = false →
  py_getitem (VWrap k p) item
  = ([ELog DEBUG UnknownItem [item; VClass k]], Raise (AttributeError item)).
Proof.
  intros Hb Hout. cbn [py_getitem]. rewrite Hb.
  rewrite (wrapper_getattr_unknown _ _ _ _ _ Hout).
  unfold unknown_log. by rewrite Hb.
Qed.

Lemma getitem_enforces_whitelist_witness :
  base_of Image = APIDictWrapper
  ∧ in_attrs Image (VStr "apidict") = false
  ∧ py_getitem (VWrap Image (VDict {[ "id" := VInt 9 ]})) (VStr "apidict")
    = ([ELog DEBUG UnknownItem [VStr "apidict"; VClass Image]],
       Raise (AttributeError (VStr "apidict")))
  ∧ py_getattr (VWrap Image (VDict {[ "id" := VInt 9 ]})) "apidict"
    = ([], Ok (VDict {[ "id" := VInt 9 ]})).
Proof.
  exact (conj eq_refl (conj eq_refl (conj
           (getitem_enforces_whitelist Image (VDict {[ "id" := VInt 9 ]})
              (VStr "apidict") eq_refl eq_refl)
           eq_refl))).
Defined.

(** [__getattr__] of a resource wrapper on a whitelisted name hands the
    name to the payload's [__getattr__]. *)
Lemma resource_wrapper_delegates k p name :
  base_of k = APIResourceWrapper →
  name ∈ attrs k →
  call_getattr (VWrap k p) (VStr name) = call_getattr p (VStr name).
Proof.
  intros Hb Hin.
  assert (Hw : in_attrs k (VStr name) = true)
    by (rewrite in_attrs_str; by apply bool_decide_eq_true).
  cbn [call_getattr].
  destruct k; try discriminate Hb; cbn [wrapper_getattr];
    unfold APIResourceWrapper_getattr; by rewrite Hw.
Qed.

(** X4: on a resource wrapper, a whitelisted field that the raw resource
    does not define ends in [AttributeError] carrying the name, raised by the
    resource itself: no debug record is written. *)
Theorem resource_wrapper_missing_field (k : wrapper_class) (cls : string)
    (fields : gmap string value) (name : string) :
  base_of k = APIResourceWrapper →
  name ∈ attrs k →
  ¬ (k = Server ∧ name = "attrs") →
  fields !! name = None →
  py_getattr (VWrap k (VRaw cls fields)) name
  = ([], Raise (AttributeError (VStr name))).
Proof.
  intros Hb Hin Hex Hf.
  rewrite (py_getattr_whitelisted_step _ _ _ Hin Hex).
  rewrite (resource_wrapper_delegates _ _ _ Hb Hin).
  cbn [call_getattr]. by rewrite Hf.
Qed.

Lemma resource_wrapper_missing_field_witness :
  base_of Flavor = APIResourceWrapper
  ∧ ("ram" ∈ attrs Flavor)
  ∧ ¬ (Flavor = Server ∧ "ram" = "attrs")
  ∧ ({[ "id" := VInt 1 ]} : gmap string value) !! "ram" = None
  ∧ py_getattr (VWrap Flavor (VRaw "Flavor" {[ "id" := VInt 1 ]})) "ram"
    = ([], Raise (AttributeError (VStr "ram"))).
Proof.
  assert (Hin : "ram" ∈ attrs Flavor) by by_evaluation.
  assert (Hex : ¬ (Flavor = Server ∧ "ram" = "attrs"))
    by (intros [H _]; discriminate H).
  exact (conj eq_refl (conj Hin (conj Hex (conj eq_refl
           (resource_wrapper_missing_field Flavor "Flavor" {[ "id" := VInt 1 ]}
              "ram" eq_refl Hin Hex eq_refl))))).
Defined.

(** X5: a resource wrapper calls the payload's [__getattr__] method, so
    around a payload of a built-in data type (a dictionary, a list, a
    string, a number, [None]) every whitelisted field ends in
    [AttributeError] for the name
    [__getattr__], even when a dictionary payload holds the key. *)
Theorem resource_wrapper_needs_getattr (k : wrapper_class) (p : value)
    (name : string) :
  base_of k = APIResourceWrapper →
  name ∈ attrs k →
  ¬ (k = Server ∧ name = "attrs") →
  no_getattr p →
  py_getattr (VWrap k p) name
  = ([], Raise (AttributeError (VStr "__getattr__"))).
Proof.
  intros Hb Hin Hex Hp.
  rewrite (py_getattr_whitelisted_step _ _ _ Hin Hex).
  rewrite (resource_wrapper_delegates _ _ _ Hb Hin).
  destruct p; try reflexivity; destruct Hp.
Qed.

Lemma resource_wrapper_needs_getattr_witness :
  base_of Tenant = APIResourceWrapper
  ∧ ("id" ∈ attrs Tenant)
  ∧ ¬ (Tenant = Server ∧ "id" = "attrs")
  ∧ no_getattr (VDict {[ "id" := VInt 1 ]})
  ∧ py_getattr (VWrap Tenant (VDict {[ "id" := VInt 1 ]})) "id"
    = ([], Raise (AttributeError (VStr "__getattr__"))).
Proof.
  assert (Hin : "id" ∈ attrs Tenant) by by_evaluation.
  assert (Hex : ¬ (Tenant = Server ∧ "id" = "attrs"))
    by (intros [H _]; discriminate H).
  exact (conj eq_refl (conj Hin (conj Hex (conj I
           (resource_wrapper_needs_getattr Tenant (VDict {[ "id" := VInt 1 ]})
              "id" eq_refl Hin Hex I))))).
Defined.

(** X6: the wrapper that [Image] hands out for [properties] guards the
    sub-mapping with the whitelist of [ImageProperties]: a whitelisted key
    of the sub-mapping is read through both wrappers unchanged, and a name
    that is neither whitelisted nor found by ordinary lookup is refused with
    [AttributeError] after one debug record. *)
Theorem Image_properties_nested (d pd : gmap string value) (name : string) :
  d !! "properties" = Some (VDict pd) →
  (∀ v, name ∈ attrs ImageProperties → pd !! name = Some v →
     (let* props := py_getattr (VWrap Image (VDict d)) "properties" in
      py_getattr props name) = ([], Ok v))
  ∧ (name ∉ attrs ImageProperties →
     normal_lookup ImageProperties (VDict pd) name = None →
     (let* props := py_getattr (VWrap Image (VDict d)) "properties" in
      py_getattr props name)
     = ([ELog DEBUG UnknownItem [VStr name; VClass ImageProperties]],
        Raise (AttributeError (VStr name)))).
Proof.
  intros Hd.
  assert (Hprops : py_getattr (VWrap Image (VDict d)) "properties"
                   = ret (VWrap ImageProperties (VDict pd))).
  { assert (Hin : "properties" ∈ attrs Image) by by_evaluation.
    rewrite (py_getattr_whitelisted_step _ _ _ Hin
               (dict_class_not_Server Image _ eq_refl)).
    by rewrite (wrapper_getattr_whitelisted Image (VDict d) "properties"
                  (VDict pd) Hin Hd). }
  rewrite Hprops, bind_ret_l. split.
  - intros v Hin Hv.
    rewrite (py_getattr_whitelisted_step _ _ _ Hin
               (dict_class_not_Server ImageProperties _ eq_refl)).
    rewrite (wrapper_getattr_whitelisted ImageProperties (VDict pd) name v Hin Hv).
    unfold exposed. by rewrite decide_False by (intros [? _]; discriminate).
  - intros Hout Hnone. unfold py_getattr. rewrite Hnone. cbn [call_getattr].
    apply wrapper_getattr_unknown.
    rewrite in_attrs_str. by apply bool_decide_eq_false.
Qed.

Lemma Image_properties_nested_witness :
  ∃ d pd : gmap string value,
    d !! "properties" = Some (VDict pd)
    ∧ ("kernel_id" ∈ attrs ImageProperties)
    ∧ pd !! "kernel_id" = Some (VInt 3)
    ∧ (let* props := py_getattr (VWrap Image (VDict d)) "properties" in
       py_getattr props "kernel_id") = ([], Ok (VInt 3)).
Proof.
  exists {[ "id" := VInt 9; "properties" := VDict {[ "kernel_id" := VInt 3 ]} ]},
         {[ "kernel_id" := VInt 3 ]}.
  assert (Hin : "kernel_id" ∈ attrs ImageProperties) by by_evaluation.
  exact (conj eq_refl (conj Hin (conj eq_refl
           (proj1 (Image_properties_nested
                     {[ "id" := VInt 9;
                        "properties" := VDict {[ "kernel_id" := VInt 3 ]} ]}
                     {[ "kernel_id" := VInt 3 ]} "kernel_id" eq_refl)
              (VInt 3) Hin eq_refl)))).
Defined.


(** X8: [server_reboot] never returns a value: when [server_get] fails its
    exception is passed on, and when it succeeds the [Server] wrapper refuses
    [reboot], which is not in its whitelist, with [AttributeError]. *)
Theorem server_reboot_never_returns (env : environment) (r : request)
    (instance_id hardness : value) :
  result (server_reboot env r instance_id hardness)
  = match result (server_get env r instance_id) with
    | Ok _ => Raise (AttributeError (VStr "reboot"))
    | Raise e => Raise e
    end.
Proof.
  destruct (result (server_get env r instance_id)) as [x|e] eqn:Hs.
  - exact (server_reboot_raises env r instance_id hardness x Hs).
  - unfold server_reboot. by apply result_bind_Raise.
Qed.

Lemma item_operation_wraps_witness :
  result (run_item_operation (demo_env []) demo_request
            (ServerCreate (VStr "web") (VInt 9) (VInt 1) VNone (VStr "key")))
  = Ok (VWrap Server VNone).
Proof.
  exact (item_operation_wraps (demo_env []) demo_request
           (ServerCreate (VStr "web") (VInt 9) (VInt 1) VNone (VStr "key"))
           [ELog DEBUG ExtrasConnection
              [VStr "s3cr3t"; VStr "http://nova:8774/v1.1"]]
           (Extras (VStr "s3cr3t") (VStr "http://nova:8774/v1.1"))
           VNone eq_refl eq_refl).
Defined.

Lemma delete_operation_unwrapped_witness :
  result (run_delete_operation (demo_env []) demo_request
            (FlavorDelete (VInt 2) (VBool false)))
  = Ok VNone.
Proof.
  exact (delete_operation_unwrapped (demo_env []) demo_request
           (FlavorDelete (VInt 2) (VBool false))
           [ELog DEBUG AdminConnection
              [VStr "s3cr3t"; VStr "http://nova:8774/admin"]]
           (Admin (VStr "s3cr3t") (VStr "http://nova:8774/admin"))
           VNone eq_refl eq_refl).
Defined.

(** ** Client factories *)

Lemma session_getitem_Some r key v :
  session r !! key = Some v → session_getitem r key = ret v.
Proof. intros H. unfold session_getitem. by rewrite H. Qed.

Lemma session_getitem_None r key :
  session r !! key = None → session_getitem r key = raise (KeyError (VStr key)).
Proof. intros H. unfold session_getitem. by rewrite H. Qed.

(** Resolution against a catalog whose first descriptor has the URL. *)
Lemma url_for_first r catalog name admin ep rest u :
  session r !! "serviceCatalog" = Some (VDict catalog) →
  catalog !! name = Some (VList (VDict ep :: rest)) →
  ep !! url_key admin = Some u →
  url_for r name admin = ret u.
Proof.
  intros Hcat Hs Hu. unfold url_for.
  rewrite (session_getitem_Some _ _ _ Hcat), bind_ret_l.
  destruct admin; cbn [url_key] in Hu;
    rewrite (py_getitem_dict _ _ _ Hs), bind_ret_l,
            py_getitem_first, bind_ret_l;
    exact (py_getitem_dict _ _ _ Hu).
Qed.

(** X9: with a token in the session and the service listed in the catalog,
    each session-bound factory returns a client bound to the session token
    and to the URL of the first endpoint of its service, after one debug
    record of the two: the internal URL of [nova] for the compute and extras
    clients, the admin URL of [nova] for the admin client, the admin URL of
    [keystone] for the account client. *)
Theorem session_factory_binds (r : request) (f : session_factory)
    (token url : value) (catalog ep : gmap string value) (rest : list value) :
  session r !! "token" = Some token →
  session r !! "serviceCatalog" = Some (VDict catalog) →
  catalog !! factory_service f = Some (VList (VDict ep :: rest)) →
  ep !! url_key (factory_admin f) = Some url →
  run_session_factory r f
  = ([ELog DEBUG (factory_message f) [token; url]],
     Ok (factory_client f token url)).
Proof.
  intros Htok Hcat Hs Hu.
  pose proof (url_for_first r catalog _ _ ep rest url Hcat Hs Hu) as Hurl.
  pose proof (session_getitem_Some _ _ _ Htok) as Hget.
  destruct f; cbn [factory_service factory_admin run_session_factory] in *;
    unfold compute_api, account_api, admin_api, extras_api;
    rewrite !Hget, !Hurl, !bind_ret_l; try reflexivity;
    repeat (rewrite ?Hget, ?Hurl, ?bind_ret_l); reflexivity.
Qed.

Lemma session_factory_binds_witness :
  run_session_factory demo_request AccountApi
  = ([ELog DEBUG AccountConnection
        [VStr "s3cr3t"; VStr "http://keystone:35357/v2.0"]],
     Ok (Account (VStr "s3cr3t") (VStr "http://keystone:35357/v2.0"))).
Proof.
  exact (session_factory_binds demo_request AccountApi (VStr "s3cr3t")
           (VStr "http://keystone:35357/v2.0") demo_catalog _ []
           eq_refl eq_refl eq_refl eq_refl).
Defined.

(** X10: without a token in the session, each session-bound factory raises
    [KeyError] for [token] before it resolves an endpoint or logs
    anything. *)
Theorem session_factory_needs_token (r : request) (f : session_factory) :
  session r !! "token" = None →
  run_session_factory r f = ([], Raise (KeyError (VStr "token"))).
Proof.
  intros Htok. pose proof (session_getitem_None _ _ Htok) as Hget.
  destruct f; cbn [run_session_factory];
    unfold compute_api, account_api, admin_api, extras_api;
    rewrite Hget; reflexivity.
Qed.

Lemma session_factory_needs_token_witness :
  session anonymous_request !! "token" = None
  ∧ run_session_factory anonymous_request AdminApi
    = ([], Raise (KeyError (VStr "token"))).
Proof.
  exact (conj eq_refl
           (session_factory_needs_token anonymous_request AdminApi eq_refl)).
Defined.

(** What [glance_api] does once the glance URL has been resolved and
    parsed. *)
Lemma glance_api_parsed env r catalog ep rest url host port :
  session r !! "serviceCatalog" = Some (VDict catalog) →
  catalog !! "glance" = Some (VList (VDict ep :: rest)) →
  ep !! "internalURL" = Some url →
  urlparse env url = Ok (host, port) →
  glance_api env r
  = if is_number port
    then ([ELog DEBUG GlanceConnection [host; port]], Ok (GlanceClient host port))
    else ([], Raise TypeError).
Proof.
  intros Hcat Hs Hu Hparse. unfold glance_api.
  rewrite (url_for_first r catalog "glance" false ep rest url Hcat Hs Hu).
  rewrite bind_ret_l. unfold lift. rewrite Hparse.
  cbn [bind fst snd]. destruct (is_number port); reflexivity.
Qed.

(** X11: the glance factory formats the parsed port as a number before it
    builds the client.  When the internal URL of [glance] parses to a port
    that is not a number (a URL without a port parses to [None]), the factory
    raises [TypeError], and so does every image operation, without a log
    record and without a remote call. *)
Theorem glance_needs_port (env : environment) (r : request)
    (catalog ep : gmap string value) (rest : list value) (url host port : value) :
  session r !! "serviceCatalog" = Some (VDict catalog) →
  catalog !! "glance" = Some (VList (VDict ep :: rest)) →
  ep !! "internalURL" = Some url →
  urlparse env url = Ok (host, port) →
  is_number port = false →
  glance_api env r = ([], Raise TypeError)
  ∧ image_list_detailed env r = ([], Raise TypeError)
  ∧ (∀ image_id, image_get env r image_id = ([], Raise TypeError))
  ∧ (∀ image_meta image_file,
       image_create env r image_meta image_file = ([], Raise TypeError))
  ∧ (∀ image_id image_meta,
       image_update env r image_id image_meta = ([], Raise TypeError))
  ∧ (∀ image_id, image_delete env r image_id = ([], Raise TypeError)).
Proof.
  intros Hcat Hs Hu Hparse Hport.
  pose proof (glance_api_parsed env r _ _ _ _ _ _ Hcat Hs Hu Hparse) as Hg.
  rewrite Hport in Hg.
  repeat split; try done; intros;
    unfold image_list_detailed, image_get, image_create, image_update,
           image_delete;
    by rewrite Hg.
Qed.

Lemma glance_needs_port_witness :
  glance_api portless_env demo_request = ([], Raise TypeError)
  ∧ image_list_detailed portless_env demo_request = ([], Raise TypeError).
Proof.
  pose proof (glance_needs_port portless_env demo_request demo_catalog _ []
                (VStr "http://glance:9292/v1") (VStr "glance") VNone
                eq_refl eq_refl eq_refl eq_refl eq_refl) as H.
  exact (conj (proj1 H) (proj1 (proj2 H))).
Defined.

(** ** Failures pass through the operations *)

Lemma factory_raises {A} (m : M client) (k : client → M A) tr e :
  m = (tr, Raise e) → bind m k = (tr, Raise e).
Proof. intros ->. reflexivity. Qed.

Lemma call_raises {A} env (m : M client) (k : value → M A) tr c meth args kwargs e :
  m = (tr, Ok c) →
  remote env c meth args kwargs = Raise e →
  (let* c := m in let* x := call env c meth args kwargs in k x)
  = ((tr ++ [ECall c meth args kwargs])%list, Raise e).
Proof. intros -> Hr. unfold bind, call, emit, lift. rewrite Hr. reflexivity. Qed.

Lemma call_raises_last env (m : M client) tr c meth args kwargs e :
  m = (tr, Ok c) →
  remote env c meth args kwargs = Raise e →
  (let* c := m in call env c meth args kwargs)
  = ((tr ++ [ECall c meth args kwargs])%list, Raise e).
Proof. intros -> Hr. unfold bind, call, emit, lift. rewrite Hr. reflexivity. Qed.

(** X12: when the client factory of a list, single-record or delete
    operation raises, the operation raises the same exception with the same
    events: no remote call is issued and nothing is caught. *)
Theorem factory_failure_propagates (env : environment) (r : request)
    (tr : list event) (e : exc) :
  (∀ op, list_operation_client env r op = (tr, Raise e) →
         run_list_operation env r op = (tr, Raise e))
  ∧ (∀ op, item_operation_client env r op = (tr, Raise e) →
           run_item_operation env r op = (tr, Raise e))
  ∧ (∀ op, delete_operation_client env r op = (tr, Raise e) →
           run_delete_operation env r op = (tr, Raise e)).
Proof.
  repeat split; intros op Hc; destruct op;
    cbn [list_operation_client item_operation_client delete_operation_client
         run_list_operation run_item_operation run_delete_operation] in Hc |- *;
    exact (factory_raises _ _ _ _ Hc).
Qed.

Lemma factory_failure_propagates_witness :
  list_operation_client (demo_env []) anonymous_request ServerList
  = ([], Raise (KeyError (VStr "token")))
  ∧ run_list_operation (demo_env []) anonymous_request ServerList
    = ([], Raise (KeyError (VStr "token"))).
Proof.
  exact (conj eq_refl
           (proj1 (factory_failure_propagates (demo_env []) anonymous_request
                     [] (KeyError (VStr "token")))
              ServerList eq_refl)).
Defined.

(** X13: when the remote call of a list, single-record or delete operation
    raises, the operation raises the same exception right after the call:
    nothing is wrapped, retried or caught. *)
Theorem remote_failure_propagates (env : environment) (r : request)
    (tr : list event) (c : client) (e : exc) :
  (∀ op, list_operation_client env r op = (tr, Ok c) →
         remote env c (list_operation_call op).1 (list_operation_call op).2 []
         = Raise e →
         run_list_operation env r op
         = ((tr ++ [ECall c (list_operation_call op).1
                      (list_operation_call op).2 []])%list, Raise e))
  ∧ (∀ op, item_operation_client env r op = (tr, Ok c) →
           remote env c (item_operation_call op).1.1 (item_operation_call op).1.2
                  (item_operation_call op).2 = Raise e →
           run_item_operation env r op
           = ((tr ++ [ECall c (item_operation_call op).1.1
                        (item_operation_call op).1.2
                        (item_operation_call op).2])%list, Raise e))
  ∧ (∀ op, delete_operation_client env r op = (tr, Ok c) →
           remote env c (delete_operation_call op).1 (delete_operation_call op).2 []
           = Raise e →
           run_delete_operation env r op
           = ((tr ++ [ECall c (delete_operation_call op).1
                        (delete_operation_call op).2 []])%list, Raise e)).
Proof.
  repeat split; intros op Hc Hr; destruct op;
    cbn [list_operation_client item_operation_client delete_operation_client
         list_operation_call item_operation_call delete_operation_call
         run_list_operation run_item_operation run_delete_operation
         fst snd] in Hc, Hr |- *;
    first [ exact (call_raises _ _ _ _ _ _ _ _ _ Hc Hr)
          | exact (call_raises_last _ _ _ _ _ _ _ _ Hc Hr) ].
Qed.

Lemma remote_failure_propagates_witness :
  run_item_operation down_env demo_request (TenantGet (VStr "coffee"))
  = ([ELog DEBUG AccountConnection
        [VStr "s3cr3t"; VStr "http://keystone:35357/v2.0"];
      ECall (Account (VStr "s3cr3t") (VStr "http://keystone:35357/v2.0"))
            "tenants.get" [VStr "coffee"] []],
     Raise (RemoteError (VStr "503"))).
Proof.
  exact (proj1 (proj2 (remote_failure_propagates down_env demo_request
                         [ELog DEBUG AccountConnection
                            [VStr "s3cr3t"; VStr "http://keystone:35357/v2.0"]]
                         (Account (VStr "s3cr3t")
                                  (VStr "http://keystone:35357/v2.0"))
                         (RemoteError (VStr "503"))))
           (TenantGet (VStr "coffee")) eq_refl eq_refl).
Defined.

(** ** Operations with a step of their own *)

(** X16: [image_get] wraps the first component of what [get_image]
    answered (a pair of metadata and data, modelled as a list) as [Image];
    when the answer is an empty sequence it raises [IndexError] after the
    call. *)
Theorem image_get_first (env : environment) (r : request) (image_id : value)
    (tr : list event) (c : client) :
  glance_api env r = (tr, Ok c) →
  (∀ x rest,
     remote env c "get_image" [image_id] [] = Ok (VList (x :: rest)) →
     image_get env r image_id
     = ((tr ++ [ECall c "get_image" [image_id] []])%list, Ok (VWrap Image x)))
  ∧ (remote env c "get_image" [image_id] [] = Ok (VList []) →
     image_get env r image_id
     = ((tr ++ [ECall c "get_image" [image_id] []])%list, Raise IndexError)).
Proof.
  intros Hc. unfold image_get. rewrite Hc. split.
  - intros x rest Hr. unfold bind at 1, call, emit, lift. cbn [bind].
    rewrite Hr. rewrite py_getitem_first. reflexivity.
  - intros Hr. unfold bind at 1, call, emit, lift. cbn [bind].
    rewrite Hr. reflexivity.
Qed.

Lemma image_get_first_witness :
  image_get image_env demo_request (VInt 9)
  = ([ELog DEBUG GlanceConnection [VStr "keystone"; VInt 35357];
      ECall (GlanceClient (VStr "keystone") (VInt 35357)) "get_image"
            [VInt 9] []],
     Ok (VWrap Image demo_image)).
Proof.
  exact (proj1 (image_get_first image_env demo_request (VInt 9)
                  [ELog DEBUG GlanceConnection [VStr "keystone"; VInt 35357]]
                  (GlanceClient (VStr "keystone") (VInt 35357)) eq_refl)
           demo_image [VStr "data"] eq_refl).
Defined.

(** X17: [flavor_create] converts memory, vcpu and disk with [int] after the
    admin client is built and before the remote call.  When all three
    convert, the call receives the converted values and the answer is
    returned wrapped as [Flavor]; when one of them does not, its exception is
    raised and no remote call is issued. *)
Theorem flavor_create_converts (env : environment) (r : request)
    (name memory vcpu disk flavor_id : value) (tr : list event) (c : client) :
  admin_api r = (tr, Ok c) →
  (∀ m v d x,
     py_int env memory = Ok m → py_int env vcpu = Ok v →
     py_int env disk = Ok d →
     remote env c "flavors.create" [name; m; v; d; flavor_id] [] = Ok x →
     flavor_create env r name memory vcpu disk flavor_id
     = ((tr ++ [ECall c "flavors.create" [name; m; v; d; flavor_id] []])%list,
        Ok (VWrap Flavor x)))
  ∧ (∀ e,
       py_int env memory = Raise e
       ∨ (∃ m, py_int env memory = Ok m ∧ py_int env vcpu = Raise e)
       ∨ (∃ m v, py_int env memory = Ok m ∧ py_int env vcpu = Ok v
                 ∧ py_int env disk = Raise e) →
       flavor_create env r name memory vcpu disk flavor_id = (tr, Raise e)).
Proof.
  intros Hc. unfold flavor_create. rewrite Hc. split.
  - intros m v d x Hm Hv Hd Hr.
    unfold bind, call, emit, lift, ret. rewrite Hm, Hv, Hd, Hr.
    reflexivity.
  - intros e [Hm | [(m & Hm & Hv) | (m & v & Hm & Hv & Hd)]];
      unfold bind, lift; rewrite ?Hm, ?Hv, ?Hd; cbn [app];
      by rewrite ?app_nil_r.
Qed.

Lemma flavor_create_converts_witness :
  flavor_create (demo_env []) demo_request (VStr "m1.huge") VNone (VInt 8)
    (VInt 80) (VInt 6)
  = ([ELog DEBUG AdminConnection [VStr "s3cr3t"; VStr "http://nova:8774/admin"]],
     Raise TypeError).
Proof.
  exact (proj2 (flavor_create_converts (demo_env []) demo_request
                  (VStr "m1.huge") VNone (VInt 8) (VInt 80) (VInt 6)
                  [ELog DEBUG AdminConnection
                     [VStr "s3cr3t"; VStr "http://nova:8774/admin"]]
                  (Admin (VStr "s3cr3t") (VStr "http://nova:8774/admin"))
                  eq_refl)
           TypeError (or_introl eq_refl)).
Defined.

(** X18: [image_update] sends the metadata it was given when that is true
    in a boolean context and an empty mapping otherwise ([None], an empty
    mapping), and returns the answer wrapped as [Image]. *)
Theorem image_update_metadata (env : environment) (r : request)
    (image_id image_meta x : value) (tr : list event) (c : client) :
  let sent := if py_truthy image_meta then image_meta else VDict ∅ in
  glance_api env r = (tr, Ok c) →
  remote env c "update_image" [image_id] [("image_meta", sent)] = Ok x →
  image_update env r image_id image_meta
  = ((tr ++ [ECall c "update_image" [image_id] [("image_meta", sent)]])%list,
     Ok (VWrap Image x)).
Proof.
  intros sent Hc Hr. unfold image_update. fold sent.
  exact (call_then_wrap_one _ _ _ _ _ _ _ _ _ Hc Hr).
Qed.

Lemma image_update_metadata_witness :
  image_update image_env demo_request (VInt 9) VNone
  = ([ELog DEBUG GlanceConnection [VStr "keystone"; VInt 35357];
      ECall (GlanceClient (VStr "keystone") (VInt 35357)) "update_image"
            [VInt 9] [("image_meta", VDict ∅)]],
     Ok (VWrap Image (VList [demo_image; VStr "data"]))).
Proof.
  exact (image_update_metadata image_env demo_request (VInt 9) VNone
           (VList [demo_image; VStr "data"])
           [ELog DEBUG GlanceConnection [VStr "keystone"; VInt 35357]]
           (GlanceClient (VStr "keystone") (VInt 35357)) eq_refl eq_refl).
Defined.

(** X19: the failures of [url_for] other than an unlisted service: a session
    without a catalog raises [KeyError] for [serviceCatalog]; a service
    listed with an empty endpoint list raises [IndexError]; a first
    descriptor without the URL asked for raises [KeyError] for [adminURL] or
    [internalURL]. *)
Theorem url_for_failures (r : request) (service_name : string) (admin : bool) :
  (session r !! "serviceCatalog" = None →
   url_for r service_name admin
   = ([], Raise (KeyError (VStr "serviceCatalog"))))
  ∧ (∀ catalog,
       session r !! "serviceCatalog" = Some (VDict catalog) →
       catalog !! service_name = Some (VList []) →
       url_for r service_name admin = ([], Raise IndexError))
  ∧ (∀ catalog ep rest,
       session r !! "serviceCatalog" = Some (VDict catalog) →
       catalog !! service_name = Some (VList (VDict ep :: rest)) →
       ep !! url_key admin = None →
       url_for r service_name admin
       = ([], Raise (KeyError (VStr (url_key admin))))).
Proof.
  unfold url_for. split; [|split].
  - intros Hcat. rewrite (session_getitem_None _ _ Hcat).
    destruct admin; reflexivity.
  - intros catalog Hcat Hs.
    rewrite (session_getitem_Some _ _ _ Hcat), bind_ret_l.
    destruct admin; rewrite (py_getitem_dict _ _ _ Hs), bind_ret_l; reflexivity.
  - intros catalog ep rest Hcat Hs Hu.
    rewrite (session_getitem_Some _ _ _ Hcat), bind_ret_l.
    destruct admin; cbn [url_key] in Hu |- *;
      rewrite (py_getitem_dict _ _ _ Hs), bind_ret_l,
              py_getitem_first, bind_ret_l;
      exact (py_getitem_dict_absent _ _ Hu).
Qed.

Lemma url_for_failures_witness :
  url_for {| session := ∅ |} "nova" false
  = ([], Raise (KeyError (VStr "serviceCatalog")))
  ∧ url_for {| session := {[ "serviceCatalog" :=
                              VDict {[ "nova" := VList [] ]} ]} |} "nova" true
    = ([], Raise IndexError)
  ∧ url_for {| session := {[ "serviceCatalog" :=
        VDict {[ "nova" := VList [VDict {[ "internalURL" := VStr "http://n" ]}] ]}
      ]} |} "nova" true
    = ([], Raise (KeyError (VStr "adminURL"))).
Proof.
  split; [|split].
  - exact (proj1 (url_for_failures {| session := ∅ |} "nova" false) eq_refl).
  - exact (proj1 (proj2 (url_for_failures
             {| session := {[ "serviceCatalog" :=
                                VDict {[ "nova" := VList [] ]} ]} |}
             "nova" true))
             {[ "nova" := VList [] ]} eq_refl eq_refl).
  - exact (proj2 (proj2 (url_for_failures
             {| session := {[ "serviceCatalog" :=
                  VDict {[ "nova" :=
                    VList [VDict {[ "internalURL" := VStr "http://n" ]}] ]} ]} |}
             "nova" true))
             {[ "nova" := VList [VDict {[ "internalURL" := VStr "http://n" ]}] ]}
             {[ "internalURL" := VStr "http://n" ]} [] eq_refl eq_refl eq_refl).
Defined.

(** X23: when the remote call of a list-returning operation answers with
    [None] or a number, which a loop cannot run over, the operation raises
    [TypeError] after the call. *)
Theorem list_operation_not_iterable (env : environment) (r : request)
    (op : list_operation) (tr : list event) (c : client) (v : value) :
  list_operation_client env r op = (tr, Ok c) →
  remote env c (list_operation_call op).1 (list_operation_call op).2 [] = Ok v →
  not_iterable v →
  run_list_operation env r op
  = ((tr ++ [ECall c (list_operation_call op).1 (list_operation_call op).2 []])%list,
     Raise TypeError).
Proof.
  intros Hc Hr Hv.
  assert (Hw : ∀ k, wrap_each k v = ([], Raise TypeError))
    by (intros k; destruct v; try reflexivity; destruct Hv).
  destruct op;
    cbn [list_operation_client list_operation_call run_list_operation
         fst snd] in Hc, Hr |- *;
    unfold flavor_list, flavor_list_admin, image_list_detailed, keypair_list,
           server_list, service_list, token_list_tenants, tenant_list,
           usage_list, user_list;
    rewrite Hc; unfold bind at 1, call, emit, lift; cbn [bind];
    rewrite Hr, Hw; reflexivity.
Qed.

Lemma list_operation_not_iterable_witness :
  run_list_operation (demo_env []) demo_request UserList
  = ([ELog DEBUG AccountConnection
        [VStr "s3cr3t"; VStr "http://keystone:35357/v2.0"];
      ECall (Account (VStr "s3cr3t") (VStr "http://keystone:35357/v2.0"))
            "users.list" [] []],
     Raise TypeError).
Proof.
  exact (list_operation_not_iterable (demo_env []) demo_request UserList
           [ELog DEBUG AccountConnection
              [VStr "s3cr3t"; VStr "http://keystone:35357/v2.0"]]
           (Account (VStr "s3cr3t") (VStr "http://keystone:35357/v2.0"))
           VNone eq_refl eq_refl I).
Defined.

(** ** Token detail, continued *)

(** The role loop stops at the first record without an identifier, whatever
    it has seen before. *)
Lemma scan_roles_bad pre d post admin :
  Forall has_role_id pre →
  d !! "roleId" = None →
  scan_roles (pre ++ VDict d :: post) admin
  = ([], Raise (KeyError (VStr "roleId"))).
Proof.
  intros Hpre Hd. revert admin.
  induction Hpre as [|role pre (d' & id & -> & Hid) _ IH]; intros admin;
    cbn [app scan_roles].
  - by rewrite (py_getitem_dict_absent _ _ Hd).
  - rewrite (py_getitem_dict _ _ _ Hid), bind_ret_l.
    destruct (py_eq_str id "Admin"); apply IH.
Qed.

(** X20: the role loop has no early exit: when a role record without
    [roleId] follows well-formed ones, the extraction raises [KeyError] for
    [roleId], also when an [Admin] role came before it. *)
Theorem token_info_extract_bad_role (dd da u d : gmap string value)
    (pre post : list value) :
  dd !! "auth" = Some (VDict da) →
  da !! "user" = Some (VDict u) →
  u !! "roleRefs" = Some (VList (pre ++ VDict d :: post)) →
  Forall has_role_id pre →
  d !! "roleId" = None →
  token_info_extract (VDict dd) = ([], Raise (KeyError (VStr "roleId"))).
Proof.
  intros Ha Hu Hroles Hpre Hd. unfold token_info_extract.
  rewrite (auth_user_field_Ok _ _ _ _ _ Ha Hu Hroles), bind_ret_l.
  cbn [py_iter]. rewrite bind_ret_l.
  by rewrite (scan_roles_bad _ _ _ _ Hpre Hd).
Qed.

Lemma token_info_extract_bad_role_witness :
  token_info_extract
    (VDict {[ "auth" := VDict {[ "user" := VDict
       {[ "roleRefs" := VList [VDict {[ "roleId" := VStr "Admin" ]};
                               VDict {[ "name" := VStr "Member" ]}] ]} ]} ]})
  = ([], Raise (KeyError (VStr "roleId"))).
Proof.
  apply (token_info_extract_bad_role _
           {[ "user" := VDict
                {[ "roleRefs" := VList [VDict {[ "roleId" := VStr "Admin" ]};
                                        VDict {[ "name" := VStr "Member" ]}] ]} ]}
           {[ "roleRefs" := VList [VDict {[ "roleId" := VStr "Admin" ]};
                                   VDict {[ "name" := VStr "Member" ]}] ]}
           {[ "name" := VStr "Member" ]}
           [VDict {[ "roleId" := VStr "Admin" ]}] []);
    try reflexivity.
  repeat constructor. by do 2 eexists.
Defined.

(** X21: given a [Token] wrapper around a raw token, [token_info] sends one
    GET request, for the token's own identifier, to the host and port parsed
    from the admin URL of the first [keystone] endpoint of the token's own
    catalog; the request carries the administrative token of the settings as
    [X_AUTH_TOKEN]; what the decoder makes of the answer is the response. *)
Theorem token_info_fetch_request (env : environment) (cls : string)
    (fields cat ep : gmap string value) (rest : list value)
    (url host port token_id : value) :
  fields !! "serviceCatalog" = Some (VDict cat) →
  cat !! "keystone" = Some (VList (VDict ep :: rest)) →
  ep !! "adminURL" = Some url →
  urlparse env url = Ok (host, port) →
  fields !! "id" = Some token_id →
  token_info_fetch env (VWrap Token (VRaw cls fields))
  = ([EHttpGet host port token_id (token_info_headers env)],
     match http_get env host port token_id (token_info_headers env) with
     | Ok body => json_loads env body
     | Raise e => Raise e
     end)
  ∧ token_info_headers env !! "X_AUTH_TOKEN" = Some (OPENSTACK_ADMIN_TOKEN env).
Proof.
  intros Hcat Hks Hurl Hparse Hid. split; [|reflexivity].
  assert (Hread : ∀ name v, name ∈ attrs Token → fields !! name = Some v →
                    py_getattr (VWrap Token (VRaw cls fields)) name = ret v).
  { intros name v Hin Hv.
    rewrite (py_getattr_whitelisted_step _ _ _ Hin)
      by (intros [H _]; discriminate H).
    by rewrite (wrapper_getattr_whitelisted Token (VRaw cls fields) name v Hin Hv). }
  unfold token_info_fetch.
  rewrite (Hread "serviceCatalog" _ ltac:(by_evaluation) Hcat), bind_ret_l.
  rewrite (py_getitem_dict _ _ _ Hks), bind_ret_l.
  rewrite py_getitem_first, bind_ret_l.
  rewrite (py_getitem_dict _ _ _ Hurl), bind_ret_l.
  unfold lift at 1. rewrite Hparse. unfold bind at 1.
  rewrite (Hread "id" _ ltac:(by_evaluation) Hid), bind_ret_l.
  unfold bind, emit, lift. cbn [fst snd].
  destruct (http_get env host port token_id (token_info_headers env));
    reflexivity.
Qed.

Lemma token_info_fetch_request_witness :
  token_info_fetch (demo_env ["Admin"]) demo_token
  = ([EHttpGet (VStr "keystone") (VInt 35357) (VStr "aaa-bbb")
        (token_info_headers (demo_env ["Admin"]))],
     Ok (demo_token_detail ["Admin"])).
Proof.
  exact (proj1 (token_info_fetch_request (demo_env ["Admin"]) "Token"
                  {[ "id" := VStr "aaa-bbb";
                     "serviceCatalog" := VDict demo_catalog;
                     "tenant_id" := VStr "coffee"; "username" := VStr "joe" ]}
                  demo_catalog
                  {[ "adminURL" := VStr "http://keystone:35357/v2.0";
                     "internalURL" := VStr "http://keystone:5000/v2.0" ]}
                  [] (VStr "http://keystone:35357/v2.0")
                  (VStr "keystone") (VInt 35357) (VStr "aaa-bbb")
                  eq_refl eq_refl eq_refl eq_refl eq_refl)).
Defined.

(** ** Tenant lookup, continued *)

Lemma bind_lift_Ok {A B} (a : A) (f : A → M B) : bind (lift (Ok a)) f = f a.
Proof. exact (bind_ret_l a f). Qed.

(** One turn of the loop on a raw tenant record, with its events. *)
Lemma find_tenant_raw_step env t rest tenant_id s s0 :
  raw_tenant env s t →
  py_str env tenant_id = Ok s0 →
  find_tenant env (t :: rest) tenant_id
  = if bool_decide (s = s0) then ret (Some (VWrap Tenant t))
    else find_tenant env rest tenant_id.
Proof.
  intros (cls & fields & id & -> & Hid & Hs) Hs0.
  cbn [find_tenant py_getattr]. rewrite Hid, bind_ret_l.
  rewrite Hs, bind_lift_Ok, Hs0, bind_lift_Ok.
  reflexivity.
Qed.

Lemma find_tenant_raw_prefix env pre rest tenant_id s0 :
  py_str env tenant_id = Ok s0 →
  Forall (λ t, ∃ s, raw_tenant env s t ∧ s ≠ s0) pre →
  find_tenant env (pre ++ rest) tenant_id = find_tenant env rest tenant_id.
Proof.
  intros Hs0. induction 1 as [|t pre (s & Ht & Hne) _ IH]; [reflexivity|].
  cbn [app]. rewrite (find_tenant_raw_step _ _ _ _ _ _ Ht Hs0).
  by rewrite bool_decide_eq_false_2.
Qed.

(** The steps of [token_get_tenant] around the loop, with their events. *)
Lemma token_get_tenant_events env r tenant_id token ts found :
  session r !! "token" = Some token →
  remote env (Auth (OPENSTACK_KEYSTONE_URL env)) "tenants.for_token" [token] []
  = Ok (VList ts) →
  find_tenant env ts tenant_id = ([], Ok found) →
  token_get_tenant env r tenant_id
  = (([ELog DEBUG AuthConnection [OPENSTACK_KEYSTONE_URL env];
       ECall (Auth (OPENSTACK_KEYSTONE_URL env)) "tenants.for_token" [token] []]
      ++ match found with
         | Some _ => []
         | None => [ELog WARNING UnknownTenant [tenant_id]]
         end)%list,
     Ok (default VNone found)).
Proof.
  intros Htok Hr Hfind. unfold token_get_tenant, auth_api.
  rewrite (session_getitem_Some _ _ _ Htok).
  unfold call, emit, lift, py_iter, ret. unfold bind. rewrite Hr.
  cbv beta iota. rewrite Hfind.
  destruct found; reflexivity.
Qed.

(** X22: over raw tenant records whose identifiers have string forms,
    [token_get_tenant] logs the client construction and issues the one call
    of [tenants.for_token]; it adds a warning record carrying the requested
    identifier exactly when it returns [None], that is when no tenant
    matches, and adds nothing when it returns the first match. *)
Theorem token_get_tenant_warning (env : environment) (r : request)
    (tenant_id token : value) (ts : list value) (s0 : string) :
  session r !! "token" = Some token →
  remote env (Auth (OPENSTACK_KEYSTONE_URL env)) "tenants.for_token" [token] []
  = Ok (VList ts) →
  py_str env tenant_id = Ok s0 →
  (Forall (λ t, ∃ s, raw_tenant env s t ∧ s ≠ s0) ts →
   token_get_tenant env r tenant_id
   = ([ELog DEBUG AuthConnection [OPENSTACK_KEYSTONE_URL env];
       ECall (Auth (OPENSTACK_KEYSTONE_URL env)) "tenants.for_token" [token] [];
       ELog WARNING UnknownTenant [tenant_id]],
      Ok VNone))
  ∧ (∀ pre t post,
       ts = (pre ++ t :: post)%list →
       Forall (λ t, ∃ s, raw_tenant env s t ∧ s ≠ s0) pre →
       raw_tenant env s0 t →
       token_get_tenant env r tenant_id
       = ([ELog DEBUG AuthConnection [OPENSTACK_KEYSTONE_URL env];
           ECall (Auth (OPENSTACK_KEYSTONE_URL env)) "tenants.for_token"
                 [token] []],
          Ok (VWrap Tenant t))).
Proof.
  intros Htok Hr Hs0. split.
  - intros Hall.
    apply (token_get_tenant_events env r tenant_id token ts None Htok Hr).
    rewrite <- (app_nil_r ts).
    by rewrite (find_tenant_raw_prefix _ _ _ _ _ Hs0 Hall).
  - intros pre t post -> Hpre Ht.
    apply (token_get_tenant_events env r tenant_id token _
             (Some (VWrap Tenant t)) Htok Hr).
    rewrite (find_tenant_raw_prefix _ _ _ _ _ Hs0 Hpre).
    rewrite (find_tenant_raw_step _ _ _ _ _ _ Ht Hs0).
    by rewrite bool_decide_eq_true_2.
Qed.

Lemma demo_tenants_raw_other s0 :
  s0 ≠ "1234" → s0 ≠ "coffee" →
  Forall (λ t, ∃ s, raw_tenant (demo_env []) s t ∧ s ≠ s0) demo_tenants.
Proof.
  intros H1 H2. repeat constructor.
  - exists "1234". split; [|congruence].
    exists "Tenant", {[ "id" := VInt 1234; "enabled" := VBool true ]}, (VInt 1234).
    repeat split; by vm_compute.
  - exists "coffee". split; [|congruence].
    exists "Tenant", {[ "id" := VStr "coffee"; "enabled" := VBool true ]},
           (VStr "coffee").
    repeat split; by vm_compute.
Defined.

Lemma token_get_tenant_warning_witness :
  token_get_tenant (demo_env []) demo_request (VStr "tea")
  = ([ELog DEBUG AuthConnection [VStr "http://keystone:5000/v2.0"];
      ECall (Auth (VStr "http://keystone:5000/v2.0")) "tenants.for_token"
            [VStr "s3cr3t"] [];
      ELog WARNING UnknownTenant [VStr "tea"]],
     Ok VNone).
Proof.
  apply (proj1 (token_get_tenant_warning (demo_env []) demo_request
                  (VStr "tea") (VStr "s3cr3t") demo_tenants "tea"
                  eq_refl eq_refl eq_refl)).
  apply demo_tenants_raw_other; discriminate.
Defined.

(** X24: a raw tenant record without [id] that is reached before any match
    ends [token_get_tenant] in [AttributeError] for [id], also when a later
    tenant would match. *)
Theorem token_get_tenant_missing_id (env : environment) (r : request)
    (tenant_id token : value) (pre post : list value) (cls : string)
    (fields : gmap string value) (s0 : string) :
  session r !! "token" = Some token →
  remote env (Auth (OPENSTACK_KEYSTONE_URL env)) "tenants.for_token" [token] []
  = Ok (VList (pre ++ VRaw cls fields :: post)) →
  py_str env tenant_id = Ok s0 →
  Forall (λ t, ∃ s, raw_tenant env s t ∧ s ≠ s0) pre →
  fields !! "id" = None →
  result (token_get_tenant env r tenant_id)
  = Raise (AttributeError (VStr "id")).
Proof.
  intros Htok Hr Hs0 Hpre Hid. unfold token_get_tenant, auth_api.
  rewrite (session_getitem_Some _ _ _ Htok).
  unfold call, emit, lift, py_iter, ret. unfold bind. rewrite Hr.
  cbv beta iota. rewrite (find_tenant_raw_prefix _ _ _ _ _ Hs0 Hpre).
  cbn [find_tenant py_getattr]. rewrite Hid. reflexivity.
Qed.

Lemma token_get_tenant_missing_id_witness :
  result (token_get_tenant
            (with_remote (demo_env [])
               (λ _ _ _ _, Ok (VList [VRaw "Tenant" ∅;
                                      VRaw "Tenant" {[ "id" := VStr "tea" ]}])))
            demo_request (VStr "tea"))
  = Raise (AttributeError (VStr "id")).
Proof.
  exact (token_get_tenant_missing_id
           (with_remote (demo_env [])
              (λ _ _ _ _, Ok (VList [VRaw "Tenant" ∅;
                                     VRaw "Tenant" {[ "id" := VStr "tea" ]}])))
           demo_request (VStr "tea") (VStr "s3cr3t") []
           [VRaw "Tenant" {[ "id" := VStr "tea" ]}] "Tenant" ∅ "tea"
           eq_refl eq_refl eq_refl (List.Forall_nil _) eq_refl).
Defined.
